(** * check_sensitive_file: a Cursor [beforeReadFile] hook

    Shallow embedding of [check_sensitive_file.py] and of the parts of the
    Python runtime it calls ([str], [bytes.decode], [pathlib], [json]),
    followed by the properties of the classifier and of the driver.

    Conventions.
    - A Python [str] is the list of its code points, a [bytes] object the list
      of its byte values; both are lists of [Z].
    - Library code is modelled after CPython 3.11 ([pathlib.py],
      [json/encoder.py], [unicodeobject.c]).
    - What the runtime supplies as data (the Unicode character database
      outside the ranges the program's own literals use, the JSON decoder, the
      texts of library exceptions) is a field of the record [Runtime]. *)

From Stdlib Require Import ZArith List Bool Lia String Ascii.
From Stdlib Require Import SpecFloat.
Import ListNotations.
Local Open Scope Z_scope.

(* ================================================================== *)
(** * Python strings and bytes *)

Definition pystr := list Z.
Definition pybytes := list Z.

Module Str.

(** [a == b] on strings. *)
Fixpoint eqb (a b : pystr) : bool :=
  match a, b with
  | [], [] => true
  | x :: a', y :: b' => (x =? y) && eqb a' b'
  | _, _ => false
  end.

(** Truth value of a string: [bool(s)]. *)
Definition truthy (s : pystr) : bool :=
  match s with [] => false | _ :: _ => true end.

(** [ch in s] for a one-character [ch]. *)
Definition contains (ch : Z) (s : pystr) : bool := existsb (Z.eqb ch) s.

(** [s.replace(old, new)] for one-character [old] and [new]. *)
Definition replace (old new : Z) (s : pystr) : pystr :=
  map (fun c => if c =? old then new else c) s.

(** [s.lstrip(ch)] for a one-character [ch]. *)
Fixpoint lstrip (ch : Z) (s : pystr) : pystr :=
  match s with
  | c :: s' => if c =? ch then lstrip ch s' else s
  | [] => []
  end.

(** [s.split(sep)] for a one-character [sep]; never the empty list. *)
Fixpoint split (sep : Z) (s : pystr) : list pystr :=
  match s with
  | [] => [[]]
  | c :: s' =>
      if c =? sep then [] :: split sep s'
      else match split sep s' with
           | w :: ws => (c :: w) :: ws
           | [] => [[c]]
           end
  end.

(** [sep.join(parts)] for a one-character [sep]. *)
Fixpoint join (sep : Z) (parts : list pystr) : pystr :=
  match parts with
  | [] => []
  | [w] => w
  | w :: ws => w ++ sep :: join sep ws
  end.

(** Slices [s[i:j]], [s[:j]] and [s[i:]] with non-negative bounds. *)
Definition slice (i j : Z) (s : pystr) : pystr :=
  firstn (Z.to_nat j - Z.to_nat i) (skipn (Z.to_nat i) s).
Definition upto (j : Z) (s : pystr) : pystr := firstn (Z.to_nat j) s.
Definition from (i : Z) (s : pystr) : pystr := skipn (Z.to_nat i) s.

Definition len (s : pystr) : Z := Z.of_nat (List.length s).

(** [s.find(ch, start)]: the least index [>= start] holding [ch], or [-1]. *)
Fixpoint find_at (ch : Z) (s : pystr) (i : Z) : Z :=
  match s with
  | [] => -1
  | c :: s' => if c =? ch then i else find_at ch s' (i + 1)
  end.
Definition find (ch : Z) (s : pystr) (start : Z) : Z :=
  find_at ch (from start s) start.

(** [s.startswith(p)]. *)
Definition startswith (p s : pystr) : bool :=
  eqb (firstn (List.length p) s) p.

End Str.

(* ------------------------------------------------------------------ *)
(** ** UTF-8, as the strict codec of [bytes.decode] and [str.encode] *)

Module Utf8.

Definition cont (b : Z) : bool := (0x80 <=? b) && (b <=? 0xBF).
Definition between (lo b hi : Z) : bool := (lo <=? b) && (b <=? hi).
Definition low6 (b : Z) : Z := Z.land b 0x3F.

Definition cons_opt (c : Z) (r : option pystr) : option pystr :=
  match r with Some s => Some (c :: s) | None => None end.

(** [None] where CPython raises [UnicodeDecodeError]: a stray continuation
    byte, a truncated or overlong sequence, an encoded surrogate, a value
    above U+10FFFF. *)
Fixpoint decode (bs : pybytes) : option pystr :=
  match bs with
  | [] => Some []
  | b0 :: t0 =>
      if between 0 b0 0x7F then cons_opt b0 (decode t0) else
      match t0 with
      | [] => None
      | b1 :: t1 =>
          if between 0xC2 b0 0xDF then
            if cont b1
            then cons_opt (Z.lor (Z.shiftl (Z.land b0 0x1F) 6) (low6 b1))
                          (decode t1)
            else None
          else
          match t1 with
          | [] => None
          | b2 :: t2 =>
              if between 0xE0 b0 0xEF then
                if (if b0 =? 0xE0 then between 0xA0 b1 0xBF
                    else if b0 =? 0xED then between 0x80 b1 0x9F
                    else cont b1) && cont b2
                then cons_opt
                       (Z.lor (Z.shiftl (Z.land b0 0x0F) 12)
                              (Z.lor (Z.shiftl (low6 b1) 6) (low6 b2)))
                       (decode t2)
                else None
              else
              match t2 with
              | [] => None
              | b3 :: t3 =>
                  if between 0xF0 b0 0xF4 then
                    if (if b0 =? 0xF0 then between 0x90 b1 0xBF
                        else if b0 =? 0xF4 then between 0x80 b1 0x8F
                        else cont b1) && cont b2 && cont b3
                    then cons_opt
                           (Z.lor (Z.shiftl (Z.land b0 0x07) 18)
                             (Z.lor (Z.shiftl (low6 b1) 12)
                               (Z.lor (Z.shiftl (low6 b2) 6) (low6 b3))))
                           (decode t3)
                    else None
                  else None
              end
          end
      end
  end.

Definition is_surrogate (c : Z) : bool := between 0xD800 c 0xDFFF.

(** The bytes of one code point; [None] for a surrogate (CPython raises
    [UnicodeEncodeError]) and for a value that is no code point. *)
Definition encode_char (c : Z) : option pybytes :=
  if between 0 c 0x7F then Some [c]
  else if between 0x80 c 0x7FF then
    Some [Z.lor 0xC0 (Z.shiftr c 6); Z.lor 0x80 (low6 c)]
  else if is_surrogate c then None
  else if between 0x800 c 0xFFFF then
    Some [Z.lor 0xE0 (Z.shiftr c 12); Z.lor 0x80 (low6 (Z.shiftr c 6));
          Z.lor 0x80 (low6 c)]
  else if between 0x10000 c 0x10FFFF then
    Some [Z.lor 0xF0 (Z.shiftr c 18); Z.lor 0x80 (low6 (Z.shiftr c 12));
          Z.lor 0x80 (low6 (Z.shiftr c 6)); Z.lor 0x80 (low6 c)]
  else None.

Fixpoint encode (s : pystr) : option pybytes :=
  match s with
  | [] => Some []
  | c :: s' =>
      match encode_char c, encode s' with
      | Some bs, Some r => Some (bs ++ r)
      | _, _ => None
      end
  end.

(** A code point that [encode] accepts. *)
Definition scalar (c : Z) : bool :=
  between 0 c 0x10FFFF && negb (is_surrogate c).

End Utf8.

(** String literals of the source, written as they are in the source file
    (which is UTF-8) and read as code points. *)
Definition byte_of_ascii (a : ascii) : Z := Z.of_N (N_of_ascii a).

Definition u (x : string) : pystr :=
  match Utf8.decode (map byte_of_ascii (list_ascii_of_string x)) with
  | Some s => s
  | None => []
  end.

Definition ch (x : string) : Z :=
  match u x with c :: _ => c | [] => 0 end.


(* ================================================================== *)
(** * [str.lower]

    CPython lowers a string code point by code point with
    [_PyUnicode_ToLowerFull], except that a capital sigma becomes a final or
    a medial small sigma according to its neighbours. The character database
    is data of the runtime: the record below holds the part of it that the
    program's own literals do not determine. *)

Record UnicodeData := {
  (** The full lowercase mapping of a code point outside the ranges fixed in
      [ToLowerFull] below. *)
  lower_mapping : Z -> pystr;
  (** [_PyUnicode_IsCased]. *)
  IsCased : Z -> bool;
  (** [_PyUnicode_IsCaseIgnorable]. *)
  IsCaseIgnorable : Z -> bool
}.

Module Unicode.

Definition is_ascii (c : Z) : bool := Utf8.between 0 c 0x7F.

(** [A-Z] to [a-z], every other value unchanged. *)
Definition ascii_lower (c : Z) : Z :=
  if Utf8.between (ch "A") c (ch "Z") then c + 32 else c.

(** Code points that the database maps to themselves: the surrogates and
    the CJK Unified Ideographs (caseless), and anything that is no code
    point at all (type record 0). *)
Definition caseless (c : Z) : bool :=
  Utf8.is_surrogate c || Utf8.between 0x4E00 c 0x9FFF
  || (0x110000 <=? c) || (c <? 0).

Section WithData.
Variable U : UnicodeData.

Definition ToLowerFull (c : Z) : pystr :=
  if is_ascii c then [ascii_lower c]
  else if caseless c then [c]
  else lower_mapping U c.

(** [handle_capital_sigma]: [before] holds the code points to the left of
    the sigma, nearest first; [after] those to its right. *)
Definition handle_capital_sigma (before after : pystr) : Z :=
  let final_sigma :=
    match List.find (fun c => negb (IsCaseIgnorable U c)) before with
    | Some c => IsCased U c
    | None => false
    end in
  let final_sigma :=
    if final_sigma then
      match List.find (fun c => negb (IsCaseIgnorable U c)) after with
      | Some c => negb (IsCased U c)
      | None => true
      end
    else false in
  if final_sigma then 0x3C2 else 0x3C3.

Definition lower_ucs4 (before : pystr) (c : Z) (after : pystr) : pystr :=
  if c =? 0x3A3 then [handle_capital_sigma before after]
  else ToLowerFull c.

Fixpoint do_lower (before s : pystr) : pystr :=
  match s with
  | [] => []
  | c :: after => lower_ucs4 before c after ++ do_lower (c :: before) after
  end.

(** [str.lower()]: an all-ASCII string takes the byte-wise fast path. *)
Definition lower (s : pystr) : pystr :=
  if forallb is_ascii s then map ascii_lower s else do_lower [] s.

End WithData.

End Unicode.

(* ================================================================== *)
(** * [pathlib]: the final component of a path

    [Path(p)] is a [PosixPath] or a [WindowsPath] according to the host
    ([os.name]); the two differ in their flavour. *)

Module pathlib.

Inductive flavour := Posix | Windows.

Definition sep (fl : flavour) : Z :=
  match fl with Posix => ch "/" | Windows => ch "\" end.

Definition altsep (fl : flavour) : option Z :=
  match fl with Posix => None | Windows => Some (ch "/") end.

(** [_PosixFlavour.splitroot]. *)
Definition posix_splitroot (part : pystr) : pystr * pystr * pystr :=
  let sep := ch "/" in
  match part with
  | c :: _ =>
      if c =? sep then
        let stripped_part := Str.lstrip sep part in
        if Str.len part - Str.len stripped_part =? 2
        then ([], [sep; sep], stripped_part)
        else ([], [sep], stripped_part)
      else ([], [], part)
  | [] => ([], [], part)
  end.

Definition drive_letters : pystr :=
  Eval vm_compute in
    u "abcdefghijklmnopqrstuvwxyzABCDEFGHIJKLMNOPQRSTUVWXYZ".

Definition ext_namespace_prefix : pystr := Eval vm_compute in u "\\?\".

(** [_WindowsFlavour._split_extended_path]. *)
Definition split_extended_path (s : pystr) : pystr * pystr :=
  if Str.startswith ext_namespace_prefix s then
    let prefix := Str.upto 4 s in
    let s := Str.from 4 s in
    if Str.startswith (u "UNC\") s
    then (prefix ++ Str.upto 3 s, u "\" ++ Str.from 3 s)
    else (prefix, s)
  else ([], s).

(** [first in self.drive_letters], [first] being [part[0:1]]. *)
Definition in_drive_letters (first : pystr) : bool :=
  match first with
  | [c] => Str.contains c drive_letters
  | _ => false
  end.

(** [_WindowsFlavour.splitroot]. *)
Definition windows_splitroot (part : pystr) : pystr * pystr * pystr :=
  let sep := u "\" in
  let first := Str.slice 0 1 part in
  let second := Str.slice 1 2 part in
  let '(prefix, part, first, second) :=
    if Str.eqb second sep && Str.eqb first sep then
      let '(prefix, part) := split_extended_path part in
      (prefix, part, Str.slice 0 1 part, Str.slice 1 2 part)
    else ([], part, first, second) in
  let third := Str.slice 2 3 part in
  let unc :=
    if Str.eqb second sep && Str.eqb first sep && negb (Str.eqb third sep)
    then
      let index := Str.find (ch "\") part 2 in
      if negb (index =? -1) then
        let index2 := Str.find (ch "\") part (index + 1) in
        if negb (index2 =? index + 1) then
          let index2 := if index2 =? -1 then Str.len part else index2 in
          if Str.truthy prefix
          then Some (prefix ++ Str.slice 1 index2 part, sep,
                     Str.from (index2 + 1) part)
          else Some (Str.upto index2 part, sep, Str.from (index2 + 1) part)
        else None
      else None
    else None in
  match unc with
  | Some r => r
  | None =>
      let '(drv, part, first) :=
        if Str.eqb second (u ":") && in_drive_letters first
        then (Str.upto 2 part, Str.from 2 part, third)
        else ([], part, first) in
      let '(root, part) :=
        if Str.eqb first sep then (first, Str.lstrip (ch "\") part)
        else ([], part) in
      (prefix ++ drv, root, part)
  end.

Definition splitroot (fl : flavour) (part : pystr) : pystr * pystr * pystr :=
  match fl with
  | Posix => posix_splitroot part
  | Windows => windows_splitroot part
  end.

(** A path object: [_drv], [_root], [_parts]. *)
Record PurePath := {
  _drv : pystr;
  _root : pystr;
  _parts : list pystr
}.

(** [_Flavour.parse_parts] on the one-element argument list [[part]] that
    [Path(file_path)] passes. The loop body runs once; with no earlier
    part to search for a drive, its inner loop runs zero times. [parsed]
    is built back to front and reversed at the end, as in the source. *)
Definition parse_parts (fl : flavour) (part : pystr) : PurePath :=
  if negb (Str.truthy part) then {| _drv := []; _root := []; _parts := [] |}
  else
    let sp := sep fl in
    let part :=
      match altsep fl with
      | Some a => Str.replace a sp part
      | None => part
      end in
    let '(drv, root, rel) := splitroot fl part in
    let parsed :=
      if Str.contains sp rel then
        filter (fun x => Str.truthy x && negb (Str.eqb x (u ".")))
               (rev (Str.split sp rel))
      else if Str.truthy rel && negb (Str.eqb rel (u ".")) then [rel]
      else [] in
    let parsed :=
      if Str.truthy drv || Str.truthy root then parsed ++ [drv ++ root]
      else parsed in
    {| _drv := drv; _root := root; _parts := rev parsed |}.

(** [Path(file_path)] for a string argument. *)
Definition Path (fl : flavour) (file_path : pystr) : PurePath :=
  parse_parts fl file_path.

(** The property [PurePath.name]. *)
Definition name (p : PurePath) : pystr :=
  let parts := _parts p in
  if Nat.eqb (List.length parts)
             (if Str.truthy (_drv p) || Str.truthy (_root p) then 1 else 0)%nat
  then []
  else last parts [].

End pathlib.

(* ================================================================== *)
(** * The classifier *)

Definition SENSITIVE_FILES : list pystr :=
  Eval vm_compute in map u [
    ".env";
    ".env.local";
    ".env.production";
    ".env.development";
    "config.json";
    "secrets.json";
    "credentials.json";
    "api_keys.json";
    "private_key.pem";
    "id_rsa";
    "id_rsa.pub";
    ".ssh/id_rsa";
    ".ssh/id_rsa.pub";
    "password.txt";
    "passwords.txt";
    "secret.txt";
    "secrets.txt";
    "database.yml";
    "db_config.json";
    ".aws/credentials";
    ".aws/config";
    "private.key";
    "secret.key";
    "token.txt";
    "重要資訊.txt"
  ]%string.

(** [get_filename_from_path] on its declared domain, [file_path: str]. *)
Definition get_filename_from_path (fl : pathlib.flavour) (file_path : pystr)
  : pystr :=
  if negb (Str.truthy file_path) then []
  else
    let path_obj := pathlib.Path fl file_path in
    pathlib.name path_obj.

(** The [for] loop of [is_sensitive_file] over a list of names: it returns
    at the first entry whose lowercase form equals [filename_lower]. *)
Fixpoint sensitive_loop (U : UnicodeData) (filename_lower : pystr)
         (files : list pystr) : bool :=
  match files with
  | [] => false
  | sensitive_file :: rest =>
      if Str.eqb filename_lower (Unicode.lower U sensitive_file) then true
      else sensitive_loop U filename_lower rest
  end.

(** [is_sensitive_file] with the list it scans as an argument. *)
Definition is_sensitive_in (U : UnicodeData) (files : list pystr)
           (filename : pystr) : bool :=
  if negb (Str.truthy filename) then false
  else
    let filename_lower := Unicode.lower U filename in
    sensitive_loop U filename_lower files.

Definition is_sensitive_file (U : UnicodeData) (filename : pystr) : bool :=
  is_sensitive_in U SENSITIVE_FILES filename.

(** The classifier of the specification: [is_sensitive_file] after
    [get_filename_from_path]. *)
Definition classify (fl : pathlib.flavour) (U : UnicodeData) (path : pystr)
  : bool :=
  is_sensitive_file U (get_filename_from_path fl path).

(* ================================================================== *)
(** * JSON values, exceptions and the process *)

(** What [json.loads] returns. A [JDict] lists the items of the [dict] in
    insertion order; its keys are distinct. *)
#[warnings="-register-all"]
Inductive json :=
| JNone
| JBool (b : bool)
| JInt (n : Z)
| JFloat (x : spec_float)
| JStr (s : pystr)
| JList (items : list json)
| JDict (items : list (pystr * json)).

Module Json.

(** [bool(v)], as [not v] tests it. *)
Definition truthy (v : json) : bool :=
  match v with
  | JNone => false
  | JBool b => b
  | JInt n => negb (n =? 0)
  | JFloat (S754_zero _) => false
  | JFloat _ => true
  | JStr s => Str.truthy s
  | JList l => match l with [] => false | _ :: _ => true end
  | JDict d => match d with [] => false | _ :: _ => true end
  end.

(** [type(v).__name__]. *)
Definition type_name (v : json) : pystr :=
  match v with
  | JNone => u "NoneType"
  | JBool _ => u "bool"
  | JInt _ => u "int"
  | JFloat _ => u "float"
  | JStr _ => u "str"
  | JList _ => u "list"
  | JDict _ => u "dict"
  end.

Fixpoint lookup (key : pystr) (items : list (pystr * json)) : option json :=
  match items with
  | [] => None
  | (k, v) :: rest => if Str.eqb k key then Some v else lookup key rest
  end.

(** ** [json.dumps(result, ensure_ascii=False)] for a [dict] from [str]
    to [str], which is all the program serialises. *)

Definition hexdigit (n : Z) : Z :=
  if n <? 10 then ch "0" + n else ch "a" + (n - 10).

(** [ESCAPE_DCT]: the replacement of a code point inside a JSON string. *)
Definition escape_char (c : Z) : pystr :=
  if c =? 92 then [92; 92]
  else if c =? 34 then [92; 34]
  else if c =? 8 then [92; ch "b"]
  else if c =? 12 then [92; ch "f"]
  else if c =? 10 then [92; ch "n"]
  else if c =? 13 then [92; ch "r"]
  else if c =? 9 then [92; ch "t"]
  else if Utf8.between 0 c 0x1F then
    [92; ch "u"; ch "0"; ch "0"; hexdigit (c / 16); hexdigit (c mod 16)]
  else [c].

Definition encode_basestring (s : pystr) : pystr :=
  [34] ++ flat_map escape_char s ++ [34].

Fixpoint dumps_items (items : list (pystr * pystr)) : pystr :=
  match items with
  | [] => []
  | [(k, v)] => encode_basestring k ++ u ": " ++ encode_basestring v
  | (k, v) :: rest =>
      encode_basestring k ++ u ": " ++ encode_basestring v ++ u ", "
      ++ dumps_items rest
  end.

Definition dumps (result : list (pystr * pystr)) : pystr :=
  u "{" ++ dumps_items result ++ u "}".

End Json.

(** Exceptions, by class, with the text [str(e)]. All the classes are
    subclasses of [Exception]; [JSONDecodeError] is the one the inner
    handler of [main] names. *)
Inductive exception_class :=
| UnicodeDecodeError
| UnicodeEncodeError
| JSONDecodeError
| ValueError
| RecursionError
| MemoryError
| AttributeError
| TypeError.

Record exception := {
  exc_class : exception_class;
  exc_str : pystr
}.

Definition is_JSONDecodeError (e : exception) : bool :=
  match exc_class e with JSONDecodeError => true | _ => false end.

(** [isinstance(e, Exception)]. *)
Definition is_Exception (e : exception) : bool :=
  match exc_class e with
  | UnicodeDecodeError | UnicodeEncodeError | JSONDecodeError | ValueError
  | RecursionError | MemoryError | AttributeError | TypeError => true
  end.

(** What the host and the interpreter supply. *)
Record Runtime := {
  (** [os.name]: which flavour [Path] is. *)
  host : pathlib.flavour;
  (** The Unicode character database. *)
  unicodedata : UnicodeData;
  (** [json.loads] on a [str]: a value, or the exception it raises. *)
  json_loads : pystr -> exception + json;
  (** The text of the [UnicodeDecodeError] for undecodable bytes. *)
  decode_error_text : pybytes -> pystr;
  (** The text of the [UnicodeEncodeError] for an unencodable string. *)
  encode_error_text : pystr -> pystr
}.

(** The two streams of the process. *)
Record World := {
  stdin : pybytes;
  stdout : pybytes
}.

(** Computations that read and write the streams and may raise. *)
Definition M (A : Type) : Type := World -> (exception + A) * World.

Definition ret {A} (a : A) : M A := fun w => (inr a, w).
Definition raise {A} (e : exception) : M A := fun w => (inl e, w).
Definition bind {A B} (m : M A) (k : A -> M B) : M B :=
  fun w => match m w with
           | (inr a, w') => k a w'
           | (inl e, w') => (inl e, w')
           end.

(** [try: body / except <cls> as e: handler e]. *)
Definition try_except {A} (body : M A) (catches : exception -> bool)
           (handler : exception -> M A) : M A :=
  fun w => match body w with
           | (inl e, w') => if catches e then handler e w' else (inl e, w')
           | r => r
           end.

Declare Scope py_scope.
Delimit Scope py_scope with py.
Notation "x <- m ;; k" := (bind m (fun x => k))
  (at level 61, m at next level, right associativity) : py_scope.
Notation "m ;; k" := (bind m (fun _ => k))
  (at level 61, right associativity) : py_scope.
Local Open Scope py_scope.

(** [sys.stdin.buffer.read()]: everything up to end of file. *)
Definition stdin_buffer_read : M pybytes :=
  fun w => (inr (stdin w), {| stdin := []; stdout := stdout w |}).

(** [sys.stdout.buffer.write(b)]. *)
Definition stdout_buffer_write (b : pybytes) : M unit :=
  fun w => (inr tt, {| stdin := stdin w; stdout := stdout w ++ b |}).

(** [sys.stdout.buffer.flush()]: the model's [stdout] is already what the
    reader of the pipe sees. *)
Definition stdout_buffer_flush : M unit := ret tt.

(* ------------------------------------------------------------------ *)
(** ** [main] *)

Section Main.
Variable R : Runtime.

(** [b.decode('utf-8')]. *)
Definition bytes_decode (b : pybytes) : M pystr :=
  match Utf8.decode b with
  | Some s => ret s
  | None => raise {| exc_class := UnicodeDecodeError;
                     exc_str := decode_error_text R b |}
  end.

(** [s.encode('utf-8')]. *)
Definition str_encode (s : pystr) : M pybytes :=
  match Utf8.encode s with
  | Some b => ret b
  | None => raise {| exc_class := UnicodeEncodeError;
                     exc_str := encode_error_text R s |}
  end.

(** [data.get(key, default)]: only a [dict] has the method. *)
Definition data_get (data : json) (key : pystr) (default : json) : M json :=
  match data with
  | JDict items =>
      ret (match Json.lookup key items with Some v => v | None => default end)
  | _ =>
      raise {| exc_class := AttributeError;
               exc_str := u "'" ++ Json.type_name data
                          ++ u "' object has no attribute 'get'" |}
  end.

(** The call [get_filename_from_path(file_path)] on whatever the JSON
    document held: [Path] rejects what is not a string. *)
Definition call_get_filename_from_path (file_path : json) : M pystr :=
  if negb (Json.truthy file_path) then ret []
  else
    match file_path with
    | JStr s => ret (get_filename_from_path (host R) s)
    | _ =>
        raise {| exc_class := TypeError;
                 exc_str := u "expected str, bytes or os.PathLike object, not "
                            ++ Json.type_name file_path |}
    end.

(** The three lines that end every branch:
    [output = json.dumps(result, ensure_ascii=False)],
    [sys.stdout.buffer.write(output.encode('utf-8'))],
    [sys.stdout.buffer.flush()]. *)
Definition write_result (result : list (pystr * pystr)) : M unit :=
  let output := Json.dumps result in
  b <- str_encode output ;;
  stdout_buffer_write b ;;
  stdout_buffer_flush.

(** The body of the outer [try]. [None] from the inner [try] stands for
    the [return] of its handler. *)
Definition main_body : M unit :=
  raw <- stdin_buffer_read ;;
  input_data <- bytes_decode raw ;;
  parsed <-
    try_except
      (fun w => match json_loads R input_data with
                | inr data => (inr (Some data), w)
                | inl e => (inl e, w)
                end)
      is_JSONDecodeError
      (fun e =>
         let result :=
           [(u "permission", u "allow");
            (u "user_message", u "JSON 解析錯誤: " ++ exc_str e)] in
         write_result result ;;
         ret None) ;;
  match parsed with
  | None => ret tt
  | Some data =>
      file_path <- data_get data (u "file_path") (JStr []) ;;
      if negb (Json.truthy file_path) then
        let result := [(u "permission", u "allow")] in
        write_result result
      else
        filename <- call_get_filename_from_path file_path ;;
        let result :=
          if is_sensitive_file (unicodedata R) filename then
            [(u "permission", u "deny");
             (u "user_message",
              u "無法讀取敏感檔案：" ++ filename
              ++ u "。此檔案包含敏感資訊，為保護您的資料安全，已阻止讀取。")]
          else
            [(u "permission", u "allow")] in
        write_result result
  end.

Definition main : M unit :=
  try_except main_body is_Exception
    (fun e =>
       let result :=
         [(u "permission", u "allow");
          (u "user_message", u "檢查過程中發生錯誤: " ++ exc_str e)] in
       write_result result).

(** One run of the script as a process: the bytes on its standard input
    go in, the bytes it wrote and its exit status come out. An exception
    that leaves [main] ends the interpreter with status 1. *)
Definition run (input : pybytes) : pybytes * Z :=
  match main {| stdin := input; stdout := [] |} with
  | (inr _, w) => (stdout w, 0)
  | (inl _, w) => (stdout w, 1)
  end.

End Main.

(* ================================================================== *)
(** * A concrete runtime

    An instance of [Runtime] on which the model runs from bytes to bytes:
    a fragment of the character database and a decoder for the JSON
    documents without fractions, exponents and [\u] escapes. The theorems
    below hold for every runtime; this one serves their instances. *)

Module Sample.

Definition ucd : UnicodeData := {|
  lower_mapping c :=
    if c =? 0x130 then [0x69; 0x307]
    else if c =? 0x212A then [0x6B]
    else if (Utf8.between 0xC0 c 0xDE && negb (c =? 0xD7))
            || (Utf8.between 0x391 c 0x3A9 && negb (c =? 0x3A2))
    then [c + 32]
    else [c];
  IsCased c :=
    Utf8.between (ch "A") c (ch "Z") || Utf8.between (ch "a") c (ch "z")
    || Utf8.between 0xC0 c 0xFF && negb (c =? 0xD7) && negb (c =? 0xF7)
    || Utf8.between 0x391 c 0x3C9;
  IsCaseIgnorable c :=
    (c =? ch "'") || (c =? ch ".") || (c =? ch ":") || (c =? ch "^")
    || (c =? ch "`") || Utf8.between 0x300 c 0x36F
|}.

Definition is_ws (c : Z) : bool :=
  (c =? 32) || (c =? 9) || (c =? 10) || (c =? 13).

Fixpoint skip_ws (s : pystr) : pystr :=
  match s with
  | c :: s' => if is_ws c then skip_ws s' else s
  | [] => []
  end.

(** The characters of a string up to its closing quote. *)
Fixpoint string_body (s : pystr) : option (pystr * pystr) :=
  match s with
  | [] => None
  | c :: s' =>
      if c =? 34 then Some ([], s')
      else if c <? 32 then None
      else if c =? 92 then
        match s' with
        | e :: s'' =>
            let esc :=
              if e =? 34 then Some 34 else if e =? 92 then Some 92
              else if e =? ch "/" then Some (ch "/")
              else if e =? ch "b" then Some 8
              else if e =? ch "f" then Some 12
              else if e =? ch "n" then Some 10
              else if e =? ch "r" then Some 13
              else if e =? ch "t" then Some 9
              else None in
            match esc, string_body s'' with
            | Some x, Some (str, rest) => Some (x :: str, rest)
            | _, _ => None
            end
        | [] => None
        end
      else match string_body s' with
           | Some (str, rest) => Some (c :: str, rest)
           | None => None
           end
  end.

Definition is_digit (c : Z) : bool := Utf8.between (ch "0") c (ch "9").

Fixpoint digits (acc : Z) (s : pystr) : Z * pystr :=
  match s with
  | c :: s' => if is_digit c then digits (10 * acc + (c - ch "0")) s'
               else (acc, s)
  | [] => (acc, [])
  end.

(** An integer literal: [0] or a digit string without a leading zero. *)
Definition integer (s : pystr) : option (Z * pystr) :=
  match s with
  | c :: s' =>
      if c =? ch "0" then Some (0, s')
      else if is_digit c then Some (digits 0 s)
      else None
  | [] => None
  end.

Definition no_fraction (s : pystr) : bool :=
  match s with
  | c :: _ => negb ((c =? ch ".") || (c =? ch "e") || (c =? ch "E"))
  | [] => true
  end.

(** [d[k] = v]: a key already present keeps its place. *)
Fixpoint dict_set (items : list (pystr * json)) (k : pystr) (v : json)
  : list (pystr * json) :=
  match items with
  | [] => [(k, v)]
  | (k', v') :: rest =>
      if Str.eqb k' k then (k', v) :: rest
      else (k', v') :: dict_set rest k v
  end.

Fixpoint value (fuel : nat) (s : pystr) : option (json * pystr) :=
  match fuel with
  | O => None
  | S fuel =>
      match skip_ws s with
      | [] => None
      | c :: r =>
          if c =? ch "{" then
            match skip_ws r with
            | c' :: r' =>
                if c' =? ch "}" then Some (JDict [], r')
                else members fuel (c' :: r') []
            | [] => None
            end
          else if c =? ch "[" then
            match skip_ws r with
            | c' :: r' =>
                if c' =? ch "]" then Some (JList [], r')
                else elements fuel (c' :: r') []
            | [] => None
            end
          else if c =? 34 then
            match string_body r with
            | Some (str, rest) => Some (JStr str, rest)
            | None => None
            end
          else if Str.startswith (u "true") (c :: r)
          then Some (JBool true, Str.from 4 (c :: r))
          else if Str.startswith (u "false") (c :: r)
          then Some (JBool false, Str.from 5 (c :: r))
          else if Str.startswith (u "null") (c :: r)
          then Some (JNone, Str.from 4 (c :: r))
          else
            match (if c =? ch "-" then
                     match integer r with
                     | Some (n, rest) => Some (- n, rest)
                     | None => None
                     end
                   else integer (c :: r)) with
            | Some (n, rest) =>
                if no_fraction rest then Some (JInt n, rest) else None
            | None => None
            end
      end
  end
with members (fuel : nat) (s : pystr) (acc : list (pystr * json))
  : option (json * pystr) :=
  match fuel with
  | O => None
  | S fuel =>
      match skip_ws s with
      | c :: r =>
          if c =? 34 then
            match string_body r with
            | Some (k, r1) =>
                match skip_ws r1 with
                | c1 :: r2 =>
                    if c1 =? ch ":" then
                      match value fuel r2 with
                      | Some (v, r3) =>
                          match skip_ws r3 with
                          | c3 :: r4 =>
                              if c3 =? ch "," then
                                members fuel r4 (dict_set acc k v)
                              else if c3 =? ch "}" then
                                Some (JDict (dict_set acc k v), r4)
                              else None
                          | [] => None
                          end
                      | None => None
                      end
                    else None
                | [] => None
                end
            | None => None
            end
          else None
      | [] => None
      end
  end
with elements (fuel : nat) (s : pystr) (acc : list json)
  : option (json * pystr) :=
  match fuel with
  | O => None
  | S fuel =>
      match value fuel s with
      | Some (v, r) =>
          match skip_ws r with
          | c :: r' =>
              if c =? ch "," then elements fuel r' (acc ++ [v])
              else if c =? ch "]" then Some (JList (acc ++ [v]), r')
              else None
          | [] => None
          end
      | None => None
      end
  end.

Definition loads (s : pystr) : exception + json :=
  match value (S (List.length s)) s with
  | Some (v, rest) =>
      match skip_ws rest with
      | [] => inr v
      | _ :: _ => inl {| exc_class := JSONDecodeError;
                         exc_str := u "Extra data" |}
      end
  | None => inl {| exc_class := JSONDecodeError;
                   exc_str := u "Expecting value" |}
  end.

Definition runtime (fl : pathlib.flavour) : Runtime := {|
  host := fl;
  unicodedata := ucd;
  json_loads := loads;
  decode_error_text _ := u "'utf-8' codec can't decode bytes";
  encode_error_text _ := u "'utf-8' codec can't encode characters"
|}.

(** The bytes of a source literal. *)
Definition b (x : string) : pybytes :=
  map byte_of_ascii (list_ascii_of_string x).

(** A JSON document written with apostrophes for its double quotes: its
    text and its bytes. *)
Definition jt (x : string) : pystr :=
  map (fun c => if c =? 39 then 34 else c) (u x).

Definition jb (x : string) : pybytes :=
  map (fun c => if c =? 39 then 34 else c) (b x).

End Sample.

(* ================================================================== *)
(** * Vocabulary of the specification *)

(** A field of a split path that [parse_parts] keeps: not empty, not [.]. *)
Definition is_component (x : pystr) : bool :=
  Str.truthy x && negb (Str.eqb x (u ".")).

(** The last kept field of [s] split at [sp], or the empty string. *)
Definition final_component (sp : Z) (s : pystr) : pystr :=
  last (filter is_component (Str.split sp s)) [].

(** [v] is [f] with the case of some of its ASCII letters changed. *)
Definition casing_variant (f v : pystr) : Prop :=
  Forall2 (fun a b => Unicode.ascii_lower a = Unicode.ascii_lower b) f v.

(** [name] is in the list up to case: its lowercase form is that of an
    entry. *)
Definition sensitive_name (U : UnicodeData) (name : pystr) : Prop :=
  exists e, In e SENSITIVE_FILES /\ Unicode.lower U name = Unicode.lower U e.

(** A name that is a single path component on either host: not empty, not
    [.], and free of [/], [\] and [:]. *)
Definition plain_name (v : pystr) : bool :=
  is_component v && negb (Str.contains (ch "/") v)
  && negb (Str.contains (ch "\") v) && negb (Str.contains (ch ":") v).


(** The three shapes of the dictionary that [main] serialises. *)
Definition allow_result : list (pystr * pystr) :=
  [(u "permission", u "allow")].

Definition allow_with_message (message : pystr) : list (pystr * pystr) :=
  [(u "permission", u "allow"); (u "user_message", message)].

Definition deny_with_message (message : pystr) : list (pystr * pystr) :=
  [(u "permission", u "deny"); (u "user_message", message)].

(** The message of a denial: it names the file. *)
Definition denial_message (filename : pystr) : pystr :=
  u "無法讀取敏感檔案：" ++ filename
  ++ u "。此檔案包含敏感資訊，為保護您的資料安全，已阻止讀取。".

(** The texts of the exceptions that [data.get] and [Path] raise. *)
Definition no_get_text (data : json) : pystr :=
  u "'" ++ Json.type_name data ++ u "' object has no attribute 'get'".

Definition not_a_path_text (file_path : json) : pystr :=
  u "expected str, bytes or os.PathLike object, not " ++ Json.type_name file_path.

(** [decide] of the specification, read off the branches of [main]: the
    dictionary that a run serialises ([run_decide] below). *)
Definition decide (R : Runtime) (input : pybytes) : list (pystr * pystr) :=
  match Utf8.decode input with
  | None =>
      allow_with_message (u "檢查過程中發生錯誤: " ++ decode_error_text R input)
  | Some input_data =>
      match json_loads R input_data with
      | inl e =>
          if is_JSONDecodeError e
          then allow_with_message (u "JSON 解析錯誤: " ++ exc_str e)
          else allow_with_message (u "檢查過程中發生錯誤: " ++ exc_str e)
      | inr (JDict items) =>
          let file_path :=
            match Json.lookup (u "file_path") items with
            | Some v => v
            | None => JStr []
            end in
          if negb (Json.truthy file_path) then allow_result
          else
            match file_path with
            | JStr s =>
                let filename := get_filename_from_path (host R) s in
                if is_sensitive_file (unicodedata R) filename
                then deny_with_message (denial_message filename)
                else allow_result
            | _ =>
                allow_with_message
                  (u "檢查過程中發生錯誤: " ++ not_a_path_text file_path)
            end
      | inr data =>
          allow_with_message (u "檢查過程中發生錯誤: " ++ no_get_text data)
      end
  end.

(** The bytes of a dictionary on standard output, when it has any. *)
Definition serialise (result : list (pystr * pystr)) : option pybytes :=
  Utf8.encode (Json.dumps result).

(** A string of Unicode scalar values: what [str.encode] accepts. *)
Definition well_formed (s : pystr) : bool := forallb Utf8.scalar s.

(** The assumption on the runtime under which [main] always completes: the
    texts of the exceptions that the codec and the JSON decoder raise are
    well-formed strings. *)
Definition texts_well_formed (R : Runtime) : Prop :=
  (forall b, well_formed (decode_error_text R b) = true) /\
  (forall s e, json_loads R s = inl e -> well_formed (exc_str e) = true).

(** The input is one of the error cases of [main]: undecodable bytes, a
    decoder that raises, a document that is no object, a [file_path] that is
    true and no string. *)
Definition faulty (R : Runtime) (input : pybytes) : Prop :=
  match Utf8.decode input with
  | None => True
  | Some input_data =>
      match json_loads R input_data with
      | inl _ => True
      | inr (JDict items) =>
          match Json.lookup (u "file_path") items with
          | Some (JStr _) | None => False
          | Some v => Json.truthy v = true
          end
      | inr _ => True
      end
  end.

(** The entries of the list that hold a path separator. *)
Definition path_entries : list pystr :=
  Eval vm_compute in
    map u [".ssh/id_rsa"; ".ssh/id_rsa.pub"; ".aws/credentials"; ".aws/config"]%string.

(** The list with those four entries removed. *)
Definition SENSITIVE_FILES_without_paths : list pystr :=
  filter (fun f => negb (existsb (Str.eqb f) path_entries)) SENSITIVE_FILES.

(** No lowercase mapping of the character database produces a slash. *)
Definition lowercase_never_slash (U : UnicodeData) : Prop :=
  forall c, Unicode.is_ascii c = false ->
            Str.contains (ch "/") (lower_mapping U c) = false.

(** [rel] ends with the field [v]: it is [v] or [x\v]. *)
Definition ends_with_field (v rel : pystr) : Prop :=
  rel = v \/ exists x, rel = x ++ ch "\" :: v.

(** The bytes of [{"permission": "allow"}]. *)
Definition allow_bytes : pybytes :=
  Eval vm_compute in
    match serialise allow_result with Some b => b | None => [] end.

(** A string without a slash. *)
Definition slash_free (s : pystr) : Prop := ~ In (ch "/") s.

(** A computation that does not read: its result and what it appends to
    standard output are the same in every world. *)
Definition writes_only {A} (m : M A) : Prop :=
  exists (r : exception + A) (out : pybytes),
    forall w, m w = (r, {| stdin := stdin w; stdout := stdout w ++ out |}).

(** The bytes with which a document begins: [{"permission": "allow"] and
    [{"permission": "deny"]. *)
Definition allow_head : pybytes :=
  Eval vm_compute in Sample.jb "{'permission': 'allow'".

Definition deny_head : pybytes :=
  Eval vm_compute in Sample.jb "{'permission': 'deny'".

(** A code point or byte that is no C0 control character. *)
Definition printable (x : Z) : bool := negb (Utf8.between 0 x 0x1F).

(* ================================================================== *)
(** * Properties *)

(** ** Strings *)

Lemma Str_eqb_eq (a b : pystr) : Str.eqb a b = true <-> a = b.
Proof.
  revert b; induction a as [|x a IH]; intros [|y b]; simpl;
    try (split; congruence).
  rewrite andb_true_iff, Z.eqb_eq, IH. split.
  - intros [-> ->]; reflexivity.
  - intros [= -> ->]; auto.
Qed.

Lemma Str_eqb_refl (a : pystr) : Str.eqb a a = true.
Proof. apply Str_eqb_eq; reflexivity. Qed.

Lemma Str_eqb_neq (a b : pystr) : Str.eqb a b = false <-> a <> b.
Proof.
  rewrite <- Str_eqb_eq. destruct (Str.eqb a b); split; congruence.
Qed.

Lemma contains_false (c : Z) (s : pystr) :
  Str.contains c s = false <-> ~ In c s.
Proof.
  unfold Str.contains. split.
  - intros H Hin. assert (existsb (Z.eqb c) s = true); [|congruence].
    apply existsb_exists. exists c. split; [assumption | apply Z.eqb_refl].
  - intros H. destruct (existsb (Z.eqb c) s) eqn:E; [|reflexivity].
    apply existsb_exists in E. destruct E as [x [Hx Hc]].
    apply Z.eqb_eq in Hc. subst. contradiction.
Qed.

Lemma contains_app (c : Z) (a b : pystr) :
  Str.contains c (a ++ b) = Str.contains c a || Str.contains c b.
Proof. apply existsb_app. Qed.

Lemma split_not_nil (sp : Z) (s : pystr) : Str.split sp s <> [].
Proof.
  destruct s as [|c s]; simpl; [discriminate|].
  destruct (c =? sp); [discriminate|].
  destruct (Str.split sp s); discriminate.
Qed.

Lemma split_cons_other (sp c : Z) (s : pystr) :
  c <> sp ->
  exists w ws, Str.split sp s = w :: ws /\ Str.split sp (c :: s) = (c :: w) :: ws.
Proof.
  intros Hc. simpl. apply Z.eqb_neq in Hc. rewrite Hc.
  destruct (Str.split sp s) as [|w ws] eqn:E.
  - exfalso. exact (split_not_nil _ _ E).
  - exists w, ws. auto.
Qed.

(** A string without the separator is its own single field. *)
Lemma split_no_sep (sp : Z) (s : pystr) :
  Str.contains sp s = false -> Str.split sp s = [s].
Proof.
  induction s as [|c s IH]; simpl; intros H; [reflexivity|].
  apply orb_false_iff in H. destruct H as [Hc Hs].
  rewrite Z.eqb_sym, Hc. rewrite (IH Hs). reflexivity.
Qed.

(** Splitting at a separator splits the list of fields. *)
Lemma split_app_sep (sp : Z) (a b : pystr) :
  Str.split sp (a ++ sp :: b) = Str.split sp a ++ Str.split sp b.
Proof.
  induction a as [|c a IH]; simpl.
  - rewrite Z.eqb_refl. reflexivity.
  - destruct (c =? sp); [rewrite IH; reflexivity|].
    rewrite IH. destruct (Str.split sp a) as [|w ws] eqn:E.
    + exfalso. exact (split_not_nil _ _ E).
    + reflexivity.
Qed.

(** Every field of a split is made of characters of the string, and holds
    no separator. *)
Lemma split_fields (sp : Z) (s w : pystr) :
  In w (Str.split sp s) -> (forall c, In c w -> In c s) /\ ~ In sp w.
Proof.
  revert w; induction s as [|c s IH]; simpl; intros w Hw.
  - destruct Hw as [<-|[]]. split; auto.
  - destruct (c =? sp) eqn:E.
    + destruct Hw as [<-|Hw]; [split; simpl; tauto|].
      destruct (IH _ Hw). split; auto.
    + apply Z.eqb_neq in E.
      destruct (Str.split sp s) as [|w0 ws] eqn:Es.
      * destruct Hw as [<-|[]]. split; simpl; [tauto|]. intros [?|[]]; congruence.
      * destruct Hw as [<-|Hw].
        -- destruct (IH w0 (or_introl eq_refl)) as [H1 H2]. split.
           ++ intros x [->|Hx]; [left; reflexivity | right; auto].
           ++ intros [?|?]; [congruence | contradiction].
        -- destruct (IH w (or_intror Hw)). split; auto.
Qed.

Lemma lstrip_incl (sp : Z) (s : pystr) (c : Z) :
  In c (Str.lstrip sp s) -> In c s.
Proof.
  induction s as [|x s IH]; simpl; [tauto|].
  destruct (x =? sp); simpl; auto.
Qed.

Lemma replace_no_old (old new : Z) (s : pystr) :
  old <> new -> ~ In old (Str.replace old new s).
Proof.
  intros Hne. unfold Str.replace. induction s as [|c s IH]; simpl; [tauto|].
  intros [H|H]; [|contradiction].
  destruct (c =? old) eqn:E; [congruence|]. apply Z.eqb_neq in E. congruence.
Qed.

Lemma replace_absent (old new : Z) (s : pystr) :
  ~ In old s -> Str.replace old new s = s.
Proof.
  unfold Str.replace. induction s as [|c s IH]; simpl; intros H; [reflexivity|].
  destruct (c =? old) eqn:E.
  - apply Z.eqb_eq in E. subst. tauto.
  - rewrite IH; tauto.
Qed.

Lemma replace_app (old new : Z) (a b : pystr) :
  Str.replace old new (a ++ b) = Str.replace old new a ++ Str.replace old new b.
Proof. apply map_app. Qed.

(* ------------------------------------------------------------------ *)
(** ** The final component of a path *)

Lemma is_component_no_sep_split (sp : Z) (v : pystr) :
  is_component v = true -> Str.contains sp v = false ->
  final_component sp v = v.
Proof.
  intros Hc Hs. unfold final_component.
  rewrite (split_no_sep _ _ Hs). simpl. rewrite Hc. reflexivity.
Qed.

Lemma final_component_app (sp : Z) (d v : pystr) :
  is_component v = true -> Str.contains sp v = false ->
  final_component sp (d ++ sp :: v) = v.
Proof.
  intros Hc Hs. unfold final_component.
  rewrite split_app_sep, filter_app, (split_no_sep _ _ Hs). simpl.
  rewrite Hc. apply last_last.
Qed.

(** A separator at the end adds an empty field, which is dropped. *)
Lemma final_component_trailing_sep (sp : Z) (p : pystr) :
  final_component sp (p ++ [sp]) = final_component sp p.
Proof.
  unfold final_component. rewrite split_app_sep, filter_app. simpl.
  rewrite app_nil_r. reflexivity.
Qed.

Lemma final_component_lstrip (sp : Z) (s : pystr) :
  final_component sp (Str.lstrip sp s) = final_component sp s.
Proof.
  unfold final_component. induction s as [|c s IH]; [reflexivity|].
  simpl. destruct (c =? sp) eqn:E; [|simpl; rewrite E; reflexivity].
  simpl. exact IH.
Qed.

Lemma final_component_seps (sp : Z) (s : pystr) :
  Forall (fun c => c = sp) s -> final_component sp s = [].
Proof.
  unfold final_component. induction 1 as [|c s Hc Hs IH]; [reflexivity|].
  subst c. simpl. rewrite Z.eqb_refl. simpl. exact IH.
Qed.

(** The name is empty or a kept field of the split. *)
Lemma final_component_cases (sp : Z) (s : pystr) :
  final_component sp s = [] \/
  (In (final_component sp s) (Str.split sp s)
   /\ is_component (final_component sp s) = true).
Proof.
  unfold final_component.
  destruct (filter is_component (Str.split sp s)) as [|x l] eqn:E;
    [left; reflexivity|].
  right. assert (In (last (x :: l) []) (x :: l)) as Hin.
  { destruct (exists_last (l := x :: l)) as [l' [a Ha]]; [discriminate|].
    rewrite Ha, last_last. apply in_or_app. right. left. reflexivity. }
  rewrite <- E in Hin. apply filter_In in Hin. rewrite E in Hin. exact Hin.
Qed.

(** What [parse_parts] and [name] compute together: the last kept field of
    the part that [splitroot] leaves. *)
Lemma name_parse_parts (fl : pathlib.flavour) (part : pystr) :
  part <> [] ->
  pathlib.name (pathlib.parse_parts fl part) =
  let part' := match pathlib.altsep fl with
               | Some a => Str.replace a (pathlib.sep fl) part
               | None => part
               end in
  final_component (pathlib.sep fl) (snd (pathlib.splitroot fl part')).
Proof.
  intros Hne. unfold pathlib.parse_parts.
  destruct part as [|c0 part0]; [congruence|]. cbn [Str.truthy negb].
  set (part' := match pathlib.altsep fl with
                | Some a => Str.replace a (pathlib.sep fl) (c0 :: part0)
                | None => c0 :: part0 end).
  cbv zeta.
  destruct (pathlib.splitroot fl part') as [[drv root] rel]. cbn [snd].
  fold is_component. change (Str.truthy rel && negb (Str.eqb rel (u ".")))
    with (is_component rel).
  assert ((if Str.contains (pathlib.sep fl) rel
           then filter is_component (rev (Str.split (pathlib.sep fl) rel))
           else if is_component rel then [rel] else [])
          = rev (filter is_component (Str.split (pathlib.sep fl) rel))) as ->.
  { destruct (Str.contains (pathlib.sep fl) rel) eqn:E.
    - clear. induction (Str.split (pathlib.sep fl) rel) as [|x l IH];
        [reflexivity|].
      simpl. rewrite filter_app, IH. simpl.
      destruct (is_component x); simpl; [reflexivity | apply app_nil_r].
    - rewrite (split_no_sep _ _ E). simpl.
      destruct (is_component rel); reflexivity. }
  unfold final_component, pathlib.name. cbn [pathlib._parts pathlib._drv pathlib._root].
  destruct (Str.truthy drv || Str.truthy root).
  - rewrite rev_app_distr, rev_involutive. simpl.
    destruct (filter is_component (Str.split (pathlib.sep fl) rel)) as [|x l];
      reflexivity.
  - rewrite rev_involutive.
    destruct (filter is_component (Str.split (pathlib.sep fl) rel)) as [|x l];
      reflexivity.
Qed.

Lemma posix_splitroot_rel (part : pystr) :
  final_component (ch "/") (snd (pathlib.posix_splitroot part))
  = final_component (ch "/") part.
Proof.
  unfold pathlib.posix_splitroot. destruct part as [|c s]; [reflexivity|].
  destruct (c =? ch "/") eqn:E; [|reflexivity].
  match goal with
  | |- context [if ?b then _ else _] => destruct b
  end; cbn [snd]; apply final_component_lstrip.
Qed.

(** On a POSIX host the file name of a path is the last field between
    slashes that is neither empty nor [.]. *)
Lemma get_filename_posix (p : pystr) :
  get_filename_from_path pathlib.Posix p = final_component (ch "/") p.
Proof.
  unfold get_filename_from_path, pathlib.Path.
  destruct p as [|c s]; [reflexivity|]. cbn [Str.truthy negb].
  rewrite name_parse_parts by discriminate.
  cbn [pathlib.altsep pathlib.sep pathlib.splitroot].
  apply posix_splitroot_rel.
Qed.

(** ** What a Windows path leaves after its drive and root *)


Lemma ends_with_field_final (v rel : pystr) :
  is_component v = true -> Str.contains (ch "\") v = false ->
  ends_with_field v rel -> final_component (ch "\") rel = v.
Proof.
  intros Hc Hs [->|[x ->]].
  - apply is_component_no_sep_split; assumption.
  - apply final_component_app; assumption.
Qed.

Lemma contains_cons_false (sp c : Z) (v : pystr) :
  Str.contains sp (c :: v) = false -> c <> sp /\ Str.contains sp v = false.
Proof.
  unfold Str.contains. cbn [existsb]. intros H.
  apply orb_false_iff in H. destruct H as [H1 H2]. split; [|exact H2].
  apply Z.eqb_neq in H1. congruence.
Qed.

Lemma lstrip_head_other (sp c : Z) (v : pystr) :
  c <> sp -> Str.lstrip sp (c :: v) = c :: v.
Proof. intros H. cbn [Str.lstrip]. apply Z.eqb_neq in H. rewrite H. reflexivity. Qed.

Lemma lstrip_no_sep (sp : Z) (v : pystr) :
  Str.contains sp v = false -> Str.lstrip sp v = v.
Proof.
  destruct v as [|c v]; [reflexivity|]. intros H.
  apply contains_cons_false in H. apply lstrip_head_other. tauto.
Qed.

Lemma ends_with_field_lstrip (v rel : pystr) :
  Str.contains (ch "\") v = false ->
  ends_with_field v rel -> ends_with_field v (Str.lstrip (ch "\") rel).
Proof.
  intros Hs [->|[x ->]].
  - left. apply lstrip_no_sep. exact Hs.
  - induction x as [|c x IH].
    + left. cbn [app Str.lstrip]. rewrite Z.eqb_refl.
      apply lstrip_no_sep. exact Hs.
    + cbn [app Str.lstrip]. destruct (c =? ch "\") eqn:E; [exact IH|].
      right. exists (c :: x). reflexivity.
Qed.

(** Dropping a drive [X:] keeps the last field, which holds no colon. *)
Lemma ends_with_field_drive (v : pystr) (a : Z) (rest : pystr) :
  Str.contains (ch ":") v = false ->
  ends_with_field v (a :: ch ":" :: rest) -> ends_with_field v rest.
Proof.
  intros Hv [H|[x H]].
  - exfalso. subst v. apply contains_cons_false in Hv. destruct Hv as [_ Hv].
    apply contains_cons_false in Hv. tauto.
  - destruct x as [|x0 [|x1 x]]; cbn [app] in H.
    + exfalso. injection H as _ H. subst v.
      apply contains_cons_false in Hv. tauto.
    + exfalso. injection H as _ H _. discriminate H.
    + injection H as _ _ H. right. exists x. exact H.
Qed.

(** Away from the [\\] prefixes (UNC and extended paths), [splitroot] takes
    off a drive letter and leading separators. *)
Lemma windows_splitroot_local (part : pystr) :
  Str.eqb (Str.slice 1 2 part) (u "\") && Str.eqb (Str.slice 0 1 part) (u "\")
  = false ->
  pathlib.windows_splitroot part =
  let '(drv, part0, first0) :=
    if Str.eqb (Str.slice 1 2 part) (u ":")
       && pathlib.in_drive_letters (Str.slice 0 1 part)
    then (Str.upto 2 part, Str.from 2 part, Str.slice 2 3 part)
    else ([], part, Str.slice 0 1 part) in
  let '(root, part1) :=
    if Str.eqb first0 (u "\") then (first0, Str.lstrip (ch "\") part0)
    else ([], part0) in
  (drv, root, part1).
Proof.
  intros H. unfold pathlib.windows_splitroot. rewrite H.
  cbv beta iota zeta. rewrite H. cbn [andb app]. reflexivity.
Qed.

Lemma windows_splitroot_field (v part : pystr) :
  plain_name v = true ->
  ends_with_field v part ->
  Str.eqb (Str.slice 1 2 part) (u "\") && Str.eqb (Str.slice 0 1 part) (u "\")
  = false ->
  ends_with_field v (snd (pathlib.windows_splitroot part)).
Proof.
  intros Hv Hend Hunc.
  unfold plain_name in Hv. repeat rewrite andb_true_iff in Hv.
  destruct Hv as [[[Hc H1] H2] H3].
  apply negb_true_iff in H1, H2, H3.
  rewrite (windows_splitroot_local _ Hunc).
  destruct (Str.eqb (Str.slice 1 2 part) (u ":")
            && pathlib.in_drive_letters (Str.slice 0 1 part)) eqn:Edrv.
  - apply andb_true_iff in Edrv. destruct Edrv as [Ecolon _].
    apply Str_eqb_eq in Ecolon.
    destruct part as [|a [|b rest]]; try discriminate Ecolon.
    assert (b = ch ":") as -> by (injection Ecolon; auto).
    assert (ends_with_field v rest) as Hrest
      by (eapply ends_with_field_drive; eassumption).
    change (Str.from 2 (a :: ch ":" :: rest)) with rest.
    match goal with
    | |- context [if ?c then _ else _] => destruct c
    end; cbn [snd].
    + apply ends_with_field_lstrip; assumption.
    + assumption.
  - match goal with
    | |- context [if ?c then _ else _] => destruct c
    end; cbn [snd].
    + apply ends_with_field_lstrip; assumption.
    + assumption.
Qed.

Lemma startswith_two_seps (p : pystr) :
  Str.startswith (u "\\") p =
  Str.eqb (Str.slice 1 2 p) (u "\") && Str.eqb (Str.slice 0 1 p) (u "\").
Proof.
  destruct p as [|a [|b r]]; [reflexivity| |].
  - change (Str.startswith (u "\\") [a]) with ((a =? 92) && false).
    change (Str.slice 1 2 [a]) with (@nil Z).
    cbn [Str.eqb andb]. apply andb_false_r.
  - change (Str.startswith (u "\\") (a :: b :: r))
      with ((a =? 92) && ((b =? 92) && true)).
    change (Str.slice 1 2 (a :: b :: r)) with [b].
    change (Str.slice 0 1 (a :: b :: r)) with [a].
    change (u "\") with [92]. cbn [Str.eqb].
    destruct (a =? 92), (b =? 92); reflexivity.
Qed.

(** On a Windows host, a path that ends with the field [v] once its
    slashes are backslashes, and that does not begin with two separators,
    has the file name [v]. *)
Lemma get_filename_windows_field (p v : pystr) :
  plain_name v = true ->
  ends_with_field v (Str.replace (ch "/") (ch "\") p) ->
  Str.startswith (u "\\") (Str.replace (ch "/") (ch "\") p) = false ->
  get_filename_from_path pathlib.Windows p = v.
Proof.
  intros Hv Hend Hunc.
  assert (Hv' := Hv).
  unfold plain_name in Hv'. repeat rewrite andb_true_iff in Hv'.
  destruct Hv' as [[[Hc H1] H2] H3].
  apply negb_true_iff in H1, H2, H3.
  unfold get_filename_from_path, pathlib.Path.
  destruct p as [|c0 p0] eqn:Ep.
  { exfalso. destruct Hend as [H|[x H]].
    - rewrite <- H in Hc. discriminate Hc.
    - destruct x; discriminate H. }
  cbn [Str.truthy negb]. rewrite name_parse_parts by discriminate.
  cbn [pathlib.altsep pathlib.sep pathlib.splitroot]. cbv zeta.
  apply ends_with_field_final; try assumption.
  apply windows_splitroot_field; try assumption.
  rewrite <- startswith_two_seps. exact Hunc.
Qed.

Lemma get_filename_windows_prefix (d v : pystr) (s : Z) :
  plain_name v = true ->
  s = ch "/" \/ s = ch "\" ->
  Str.startswith (u "\\") (Str.replace (ch "/") (ch "\") (d ++ s :: v)) = false ->
  get_filename_from_path pathlib.Windows (d ++ s :: v) = v.
Proof.
  intros Hv Hs Hunc. apply get_filename_windows_field; try assumption.
  unfold plain_name in Hv. repeat rewrite andb_true_iff in Hv.
  destruct Hv as [[[Hc H1] H2] H3]. apply negb_true_iff in H1.
  right. exists (Str.replace (ch "/") (ch "\") d).
  rewrite replace_app. f_equal. unfold Str.replace at 1. cbn [map].
  assert ((if s =? ch "/" then ch "\" else s) = ch "\") as ->
    by (destruct Hs; subst s; reflexivity).
  f_equal. apply replace_absent. apply contains_false. exact H1.
Qed.

(** A plain name is its own file name on either host. *)
Lemma get_filename_plain (fl : pathlib.flavour) (v : pystr) :
  plain_name v = true -> get_filename_from_path fl v = v.
Proof.
  intros Hv. assert (Hv' := Hv).
  unfold plain_name in Hv'. repeat rewrite andb_true_iff in Hv'.
  destruct Hv' as [[[Hc H1] H2] H3].
  apply negb_true_iff in H1, H2, H3.
  destruct fl.
  - rewrite get_filename_posix. apply is_component_no_sep_split; assumption.
  - assert (Str.replace (ch "/") (ch "\") v = v) as Hr
      by (apply replace_absent, contains_false; exact H1).
    apply get_filename_windows_field; try assumption; rewrite Hr.
    + left. reflexivity.
    + destruct v as [|a v]; [reflexivity|].
      apply contains_cons_false in H2. destruct H2 as [Ha _].
      apply Z.eqb_neq in Ha. unfold Str.startswith. change (u "\\") with [92; 92].
      destruct v; cbn [List.length firstn Str.eqb];
        change (ch "\") with 92 in Ha; rewrite Ha; reflexivity.
Qed.

(* ------------------------------------------------------------------ *)
(** ** Lowercase and casing variants *)

Ltac zbool :=
  unfold Unicode.is_ascii, Unicode.ascii_lower, Utf8.between in *;
  change (ch "A") with 65 in *; change (ch "Z") with 90 in *;
  repeat match goal with
         | |- context [?x <=? ?y] => destruct (Z.leb_spec x y)
         | H : context [?x <=? ?y] |- _ => destruct (Z.leb_spec x y)
         end;
  cbn [andb orb negb] in *.

Lemma variant_is_ascii (a b : Z) :
  Unicode.ascii_lower a = Unicode.ascii_lower b ->
  Unicode.is_ascii a = Unicode.is_ascii b.
Proof. intros H. zbool; try reflexivity; lia. Qed.

Lemma variant_not_ascii (a b : Z) :
  Unicode.ascii_lower a = Unicode.ascii_lower b ->
  Unicode.is_ascii a = false -> a = b.
Proof. intros H Ha. zbool; try discriminate; lia. Qed.

Section Lowercase.
Variable U : UnicodeData.

Lemma variant_ToLowerFull (a b : Z) :
  Unicode.ascii_lower a = Unicode.ascii_lower b ->
  Unicode.ToLowerFull U a = Unicode.ToLowerFull U b.
Proof.
  intros H. unfold Unicode.ToLowerFull.
  rewrite <- (variant_is_ascii _ _ H).
  destruct (Unicode.is_ascii a) eqn:E; [rewrite H; reflexivity|].
  rewrite (variant_not_ascii _ _ H E). reflexivity.
Qed.

Lemma variant_sigma (a b : Z) :
  Unicode.ascii_lower a = Unicode.ascii_lower b ->
  (a =? 0x3A3) = (b =? 0x3A3).
Proof.
  intros H. destruct (Unicode.is_ascii a) eqn:E.
  - assert (Unicode.is_ascii b = true) as E'
      by (rewrite <- (variant_is_ascii _ _ H); exact E).
    clear H.
    assert (a <> 0x3A3) by (intros ->; discriminate E).
    assert (b <> 0x3A3) by (intros ->; discriminate E').
    destruct (Z.eqb_spec a 0x3A3), (Z.eqb_spec b 0x3A3); congruence.
  - rewrite (variant_not_ascii _ _ H E). reflexivity.
Qed.

(** Where no capital sigma occurs, lowering is code point by code point
    and does not look at the neighbours. *)
Lemma do_lower_variant (f v before before' : pystr) :
  casing_variant f v -> Str.contains 0x3A3 f = false ->
  Unicode.do_lower U before' v = Unicode.do_lower U before f.
Proof.
  intros Hv. revert before before'.
  induction Hv as [|a b f v Hab Hfv IH]; intros before before' Hs;
    [reflexivity|].
  apply contains_cons_false in Hs. destruct Hs as [Ha Hs].
  cbn [Unicode.do_lower]. unfold Unicode.lower_ucs4.
  rewrite <- (variant_sigma _ _ Hab).
  apply Z.eqb_neq in Ha. rewrite Ha.
  rewrite (variant_ToLowerFull _ _ Hab). f_equal. apply IH. exact Hs.
Qed.

Lemma lower_variant (f v : pystr) :
  casing_variant f v -> Str.contains 0x3A3 f = false ->
  Unicode.lower U v = Unicode.lower U f.
Proof.
  intros Hv Hs. unfold Unicode.lower.
  assert (forallb Unicode.is_ascii v = forallb Unicode.is_ascii f
          /\ map Unicode.ascii_lower v = map Unicode.ascii_lower f)
    as [-> ->].
  { clear Hs. induction Hv as [|a b f v Hab Hfv [IH1 IH2]]; [split; reflexivity|].
    cbn [forallb map]. rewrite IH1, IH2, Hab, (variant_is_ascii _ _ Hab).
    split; reflexivity. }
  rewrite (do_lower_variant f v [] [] Hv Hs). reflexivity.
Qed.

(** Every entry of the list is its own lowercase form, whatever the rest
    of the character database says. *)
Lemma lower_entries : map (Unicode.lower U) SENSITIVE_FILES = SENSITIVE_FILES.
Proof. reflexivity. Qed.

Lemma lower_entry (e : pystr) :
  In e SENSITIVE_FILES -> Unicode.lower U e = e.
Proof.
  intros H. pose proof lower_entries as L.
  apply In_nth with (d := []) in H. destruct H as [n [Hn <-]].
  rewrite <- L at 2. rewrite <- (map_nth (Unicode.lower U)).
  rewrite L.
  replace (Unicode.lower U []) with (@nil Z) by reflexivity. reflexivity.
Qed.

Lemma sensitive_loop_iff (x : pystr) (files : list pystr) :
  sensitive_loop U x files = true <->
  exists e, In e files /\ x = Unicode.lower U e.
Proof.
  induction files as [|f files IH]; cbn [sensitive_loop].
  - split; [discriminate | intros [e [[] _]]].
  - destruct (Str.eqb x (Unicode.lower U f)) eqn:E.
    + apply Str_eqb_eq in E. split; [|reflexivity].
      intros _. exists f. split; [left; reflexivity | exact E].
    + apply Str_eqb_neq in E. rewrite IH. split.
      * intros [e [He Hx]]. exists e. split; [right; exact He | exact Hx].
      * intros [e [[->|He] Hx]]; [contradiction|]. exists e. auto.
Qed.

(** [is_sensitive_file] decides membership up to case, by equality of the
    lowercase forms. *)
Lemma is_sensitive_file_iff (name : pystr) :
  is_sensitive_file U name = true <-> sensitive_name U name.
Proof.
  unfold is_sensitive_file, is_sensitive_in, sensitive_name.
  destruct name as [|c name]; cbn [Str.truthy negb].
  - split; [discriminate|]. intros [e [He Hl]].
    rewrite (lower_entry e He) in Hl. exfalso.
    change (Unicode.lower U []) with (@nil Z) in Hl. subst e.
    assert (existsb (Str.eqb []) SENSITIVE_FILES = true) as Hex
      by (apply existsb_exists; exists []; split; [exact He | reflexivity]).
    discriminate Hex.
  - apply sensitive_loop_iff.
Qed.

End Lowercase.

(* ------------------------------------------------------------------ *)
(** ** The entries of the list and their casings *)

(** A casing of a string has a character that is no letter exactly where
    the string has it. *)
Lemma variant_contains (c : Z) (f v : pystr) :
  Unicode.ascii_lower c = c -> Utf8.between (ch "a") c (ch "z") = false ->
  casing_variant f v -> Str.contains c v = Str.contains c f.
Proof.
  intros Hc Hl Hv. unfold Str.contains.
  induction Hv as [|a b f v Hab Hfv IH]; [reflexivity|].
  cbn [existsb]. rewrite IH. f_equal.
  change (ch "a") with 97 in Hl. change (ch "z") with 122 in Hl.
  destruct (Z.eqb_spec c a), (Z.eqb_spec c b); try reflexivity; exfalso;
    zbool; try discriminate; lia.
Qed.

Lemma variant_is_component (f v : pystr) :
  casing_variant f v -> is_component v = is_component f.
Proof.
  intros Hv. unfold is_component.
  destruct Hv as [|a b f v Hab Hfv]; [reflexivity|].
  cbn [Str.truthy andb]. f_equal. change (u ".") with [46].
  destruct Hfv as [|a' b' f v _ _]; cbn [Str.eqb].
  - f_equal.
    destruct (Z.eqb_spec b 46), (Z.eqb_spec a 46); try reflexivity; exfalso;
      zbool; lia.
  - rewrite !andb_false_r. reflexivity.
Qed.

Lemma variant_plain_name (f v : pystr) :
  casing_variant f v -> plain_name v = plain_name f.
Proof.
  intros Hv. unfold plain_name.
  rewrite (variant_is_component _ _ Hv).
  rewrite !(fun c H1 H2 => variant_contains c f v H1 H2 Hv) by reflexivity.
  reflexivity.
Qed.

Lemma casing_variant_refl (f : pystr) : casing_variant f f.
Proof. induction f; constructor; auto. Qed.

(** An entry without a slash is a plain name and holds no capital sigma. *)
Lemma entry_plain (f : pystr) :
  In f SENSITIVE_FILES -> Str.contains (ch "/") f = false ->
  plain_name f = true /\ Str.contains 0x3A3 f = false.
Proof.
  intros Hin Hs.
  assert (forallb (fun f => Str.contains (ch "/") f
                            || (plain_name f && negb (Str.contains 0x3A3 f)))
                  SENSITIVE_FILES = true) as H by reflexivity.
  rewrite forallb_forall in H. specialize (H f Hin). rewrite Hs in H.
  cbn [orb] in H. apply andb_true_iff in H. destruct H as [H1 H2].
  apply negb_true_iff in H2. auto.
Qed.

(** Every casing of an entry that holds no slash is classified as
    sensitive, on either host. *)
Lemma classify_casing (fl : pathlib.flavour) (U : UnicodeData) (f v : pystr) :
  In f SENSITIVE_FILES -> Str.contains (ch "/") f = false ->
  casing_variant f v ->
  get_filename_from_path fl v = v /\ is_sensitive_file U v = true.
Proof.
  intros Hin Hs Hv. destruct (entry_plain f Hin Hs) as [Hp Hsig]. split.
  - apply get_filename_plain. rewrite (variant_plain_name _ _ Hv). exact Hp.
  - apply is_sensitive_file_iff. exists f. split; [exact Hin|].
    apply lower_variant; assumption.
Qed.

(* ------------------------------------------------------------------ *)
(** ** Runs of [main] *)

Section Runs.
Variable R : Runtime.

Lemma write_result_ok (result : list (pystr * pystr)) (out : pybytes)
      (w : World) :
  serialise result = Some out ->
  write_result R result w
  = (inr tt, {| stdin := stdin w; stdout := stdout w ++ out |}).
Proof.
  unfold serialise, write_result, str_encode, bind. intros ->.
  reflexivity.
Qed.

(** What [main] does to the streams, whenever the dictionary of [decide]
    can be encoded. *)
Lemma main_decide (w : World) (out : pybytes) :
  serialise (decide R (stdin w)) = Some out ->
  main R w = (inr tt, {| stdin := []; stdout := stdout w ++ out |}).
Proof.
  unfold decide, main, main_body, try_except, bind, stdin_buffer_read,
    bytes_decode.
  destruct (Utf8.decode (stdin w)) as [input_data|]; cbn [raise ret].
  2:{ intros H. cbn [is_Exception exc_class exc_str].
      rewrite (write_result_ok _ _ _ H). reflexivity. }
  destruct (json_loads R input_data) as [e|data].
  - destruct (is_JSONDecodeError e) eqn:Ej; intros H.
    + rewrite (write_result_ok _ _ _ H). reflexivity.
    + assert (is_Exception e = true) as -> by (destruct e as [[] ?]; reflexivity).
      rewrite (write_result_ok _ _ _ H). reflexivity.
  - unfold data_get, call_get_filename_from_path.
    destruct data as [| | | | |items|items];
      try (intros H; cbn [raise is_Exception exc_class exc_str];
           rewrite (write_result_ok _ _ _ H); reflexivity).
    cbn [ret].
    set (file_path := match Json.lookup (u "file_path") items with
                      | Some v => v
                      | None => JStr []
                      end).
    destruct (Json.truthy file_path) eqn:Et; cbn [negb].
    2:{ intros H. rewrite (write_result_ok _ _ _ H). reflexivity. }
    destruct file_path as [| | | |s| |];
      try (intros H; cbn [raise is_Exception exc_class exc_str];
           rewrite (write_result_ok _ _ _ H); reflexivity).
    cbn [ret]. intros H.
    destruct (is_sensitive_file (unicodedata R)
                (get_filename_from_path (host R) s));
      rewrite (write_result_ok _ _ _ H); reflexivity.
Qed.

(** A run writes exactly the dictionary of [decide] and exits with
    status 0, whenever that dictionary can be encoded. *)
Lemma run_decide (input out : pybytes) :
  serialise (decide R input) = Some out -> run R input = (out, 0).
Proof.
  intros H. unfold run.
  rewrite (main_decide {| stdin := input; stdout := [] |} out H).
  reflexivity.
Qed.

End Runs.

(* ------------------------------------------------------------------ *)
(** ** What can be encoded *)

Lemma encode_char_scalar (c : Z) :
  Utf8.scalar c = true -> exists b, Utf8.encode_char c = Some b.
Proof.
  unfold Utf8.scalar, Utf8.encode_char, Utf8.is_surrogate, Utf8.between.
  intros H.
  repeat match goal with
         | |- context [?x <=? ?y] => destruct (Z.leb_spec x y)
         | H : context [?x <=? ?y] |- _ => destruct (Z.leb_spec x y)
         end; cbn [andb negb] in *; try discriminate; try (eexists; reflexivity);
    exfalso; lia.
Qed.

Lemma encode_well_formed (s : pystr) :
  well_formed s = true -> exists out, Utf8.encode s = Some out.
Proof.
  unfold well_formed. induction s as [|c s IH]; cbn [forallb Utf8.encode].
  - eexists; reflexivity.
  - intros H. apply andb_true_iff in H. destruct H as [Hc Hs].
    destruct (encode_char_scalar c Hc) as [b ->].
    destruct (IH Hs) as [out ->]. eexists; reflexivity.
Qed.

Lemma well_formed_app (a b : pystr) :
  well_formed (a ++ b) = well_formed a && well_formed b.
Proof. apply forallb_app. Qed.

Lemma escape_char_well_formed (c : Z) :
  Utf8.scalar c = true -> well_formed (Json.escape_char c) = true.
Proof.
  intros Hc. unfold Json.escape_char.
  repeat match goal with
         | |- context [if ?x =? ?y then _ else _] => destruct (x =? y);
                                                     [reflexivity|]
         end.
  destruct (Utf8.between 0 c 31) eqn:E.
  - unfold Utf8.between in E. apply andb_true_iff in E.
    rewrite !Z.leb_le in E.
    assert (exists n, (n < 32)%nat /\ c = Z.of_nat n) as [n [Hn ->]]
      by (exists (Z.to_nat c); lia).
    do 32 (destruct n as [|n]; [reflexivity|]). lia.
  - unfold well_formed. cbn [forallb]. rewrite Hc. reflexivity.
Qed.

Lemma encode_basestring_well_formed (s : pystr) :
  well_formed s = true -> well_formed (Json.encode_basestring s) = true.
Proof.
  intros H. unfold Json.encode_basestring.
  rewrite !well_formed_app. cbn [andb]. rewrite andb_true_r.
  change (well_formed [34]) with true. cbn [andb].
  unfold well_formed in *. induction s as [|c s IH]; [reflexivity|].
  cbn [forallb flat_map] in *. apply andb_true_iff in H. destruct H as [Hc Hs].
  rewrite forallb_app, IH by exact Hs. rewrite andb_true_r.
  apply escape_char_well_formed. exact Hc.
Qed.

Lemma allow_with_message_serialises (message : pystr) :
  well_formed message = true ->
  exists out, serialise (allow_with_message message) = Some out.
Proof.
  intros H. apply encode_well_formed.
  unfold allow_with_message, Json.dumps, Json.dumps_items.
  rewrite !well_formed_app, (encode_basestring_well_formed _ H).
  reflexivity.
Qed.

Lemma deny_with_message_serialises (message : pystr) :
  well_formed message = true ->
  exists out, serialise (deny_with_message message) = Some out.
Proof.
  intros H. apply encode_well_formed.
  unfold deny_with_message, Json.dumps, Json.dumps_items.
  rewrite !well_formed_app, (encode_basestring_well_formed _ H).
  reflexivity.
Qed.


Lemma allow_result_serialises : serialise allow_result = Some allow_bytes.
Proof. reflexivity. Qed.

(** ** What lowering keeps *)

Section Keeps.
Variable U : UnicodeData.

Lemma do_lower_keeps (c : Z) (s before : pystr) :
  c <> 0x3A3 -> Unicode.ToLowerFull U c = [c] ->
  In c s -> In c (Unicode.do_lower U before s).
Proof.
  intros Hs Hc. revert before. induction s as [|x s IH]; intros before Hin;
    [destruct Hin|].
  cbn [Unicode.do_lower]. apply in_or_app. destruct Hin as [->|Hin].
  - left. unfold Unicode.lower_ucs4. apply Z.eqb_neq in Hs. rewrite Hs, Hc.
    left; reflexivity.
  - right. apply IH. exact Hin.
Qed.

Lemma lower_keeps (c : Z) (s : pystr) :
  c <> 0x3A3 -> Unicode.ToLowerFull U c = [c] ->
  In c s -> In c (Unicode.lower U s).
Proof.
  intros Hs Hc Hin. unfold Unicode.lower.
  destruct (forallb Unicode.is_ascii s) eqn:E.
  - rewrite forallb_forall in E. specialize (E c Hin).
    unfold Unicode.ToLowerFull in Hc. rewrite E in Hc.
    injection Hc as Hc. rewrite <- Hc at 1. apply in_map. exact Hin.
  - apply do_lower_keeps; assumption.
Qed.

(** A code point that cannot be encoded survives lowering. *)
Lemma lower_keeps_ill_formed (c : Z) (s : pystr) :
  Utf8.scalar c = false -> In c s -> In c (Unicode.lower U s).
Proof.
  intros Hc. apply lower_keeps.
  - intros ->. discriminate Hc.
  - unfold Unicode.ToLowerFull, Unicode.caseless, Unicode.is_ascii,
      Utf8.scalar, Utf8.is_surrogate, Utf8.between in *.
    repeat match goal with
           | |- context [?x <=? ?y] => destruct (Z.leb_spec x y)
           | |- context [?x <? ?y] => destruct (Z.ltb_spec x y)
           | H : context [?x <=? ?y] |- _ => destruct (Z.leb_spec x y)
           end; cbn [andb orb negb] in *; try reflexivity; try discriminate;
      exfalso; lia.
Qed.

(** A name that the list matches is a well-formed string. *)
Lemma sensitive_well_formed (name : pystr) :
  is_sensitive_file U name = true -> well_formed name = true.
Proof.
  intros H. apply is_sensitive_file_iff in H. destruct H as [e [He Hl]].
  rewrite (lower_entry U e He) in Hl.
  assert (well_formed e = true) as We.
  { assert (forallb well_formed SENSITIVE_FILES = true) as A by reflexivity.
    rewrite forallb_forall in A. exact (A e He). }
  unfold well_formed in *. apply forallb_forall. intros c Hc.
  destruct (Utf8.scalar c) eqn:E; [reflexivity|].
  pose proof (lower_keeps_ill_formed c name E Hc) as Hin.
  rewrite Hl in Hin. rewrite forallb_forall in We.
  rewrite (We c Hin) in E. discriminate E.
Qed.

End Keeps.

(* ------------------------------------------------------------------ *)
(** ** A file name holds no slash *)


Lemma slash_free_skipn (n : nat) (s : pystr) :
  slash_free s -> slash_free (skipn n s).
Proof.
  unfold slash_free. intros H Hin. apply H.
  rewrite <- (firstn_skipn n s). apply in_or_app. right. exact Hin.
Qed.

Lemma slash_free_lstrip (sp : Z) (s : pystr) :
  slash_free s -> slash_free (Str.lstrip sp s).
Proof. unfold slash_free. intros H Hin. apply H. eapply lstrip_incl; eauto. Qed.

Lemma slash_free_app (a b : pystr) :
  slash_free a -> slash_free b -> slash_free (a ++ b).
Proof.
  unfold slash_free. intros Ha Hb Hin. apply in_app_or in Hin. tauto.
Qed.

Lemma slash_free_split_extended_path (part : pystr) :
  slash_free part -> slash_free (snd (pathlib.split_extended_path part)).
Proof.
  intros H. unfold pathlib.split_extended_path, Str.from.
  repeat match goal with
         | |- context [if ?c then _ else _] => destruct c
         end; cbn [snd];
    repeat first [ apply slash_free_app | apply slash_free_skipn ];
    try assumption.
  unfold slash_free. cbn. intros [H0|[]]. discriminate H0.
Qed.

Lemma slash_free_windows_splitroot (part : pystr) :
  slash_free part -> slash_free (snd (pathlib.windows_splitroot part)).
Proof.
  intros H. unfold pathlib.windows_splitroot.
  pose proof (slash_free_split_extended_path part H) as H'.
  destruct (pathlib.split_extended_path part) as [prefix part'].
  cbn [snd] in H'.
  repeat match goal with
         | |- context [if ?c then _ else _] => destruct c
         end; cbn [snd]; unfold Str.from;
    repeat first [ apply slash_free_lstrip | apply slash_free_skipn ];
    assumption.
Qed.

Lemma slash_free_final_component (sp : Z) (s : pystr) :
  slash_free s -> slash_free (final_component sp s).
Proof.
  intros H. destruct (final_component_cases sp s) as [->|[Hin _]];
    [intros []|].
  intros Hc. apply H. apply (proj1 (split_fields _ _ _ Hin)). exact Hc.
Qed.

Lemma get_filename_slash_free (fl : pathlib.flavour) (p : pystr) :
  slash_free (get_filename_from_path fl p).
Proof.
  destruct fl.
  - rewrite get_filename_posix.
    destruct (final_component_cases (ch "/") p) as [->|[Hin _]]; [intros []|].
    exact (proj2 (split_fields _ _ _ Hin)).
  - unfold get_filename_from_path, pathlib.Path.
    destruct p as [|c0 p0]; [intros []|]. cbn [Str.truthy negb].
    rewrite name_parse_parts by discriminate.
    cbn [pathlib.altsep pathlib.sep pathlib.splitroot]. cbv zeta.
    apply slash_free_final_component, slash_free_windows_splitroot.
    apply replace_no_old. discriminate.
Qed.

(* ------------------------------------------------------------------ *)
(** ** Lowering and the slash *)

Section Slash.
Variable U : UnicodeData.
Hypothesis Hmap : lowercase_never_slash U.

Lemma ToLowerFull_slash_free (c : Z) :
  c <> ch "/" -> slash_free (Unicode.ToLowerFull U c).
Proof.
  intros Hc. unfold Unicode.ToLowerFull.
  destruct (Unicode.is_ascii c) eqn:Ea.
  - intros [H|[]]. apply Hc. change (ch "/") with 47 in *.
    zbool; lia.
  - destruct (Unicode.caseless c).
    + intros [H|[]]. congruence.
    + apply contains_false. apply Hmap. exact Ea.
Qed.

Lemma do_lower_slash_free (s before : pystr) :
  slash_free s -> slash_free (Unicode.do_lower U before s).
Proof.
  revert before. induction s as [|c s IH]; intros before H; [intros []|].
  cbn [Unicode.do_lower]. apply slash_free_app.
  - unfold Unicode.lower_ucs4. destruct (c =? 0x3A3).
    + unfold Unicode.handle_capital_sigma.
      match goal with
      | |- slash_free [if ?b then _ else _] => destruct b
      end; intros [H0|[]]; discriminate H0.
    + apply ToLowerFull_slash_free. intros ->. apply H. left; reflexivity.
  - apply IH. intros Hin. apply H. right. exact Hin.
Qed.

Lemma lower_slash_free (s : pystr) :
  slash_free s -> slash_free (Unicode.lower U s).
Proof.
  intros H. unfold Unicode.lower. destruct (forallb Unicode.is_ascii s).
  - intros Hin. apply in_map_iff in Hin. destruct Hin as [c [Hc Hin]].
    apply H. replace (ch "/") with c; [exact Hin|].
    change (ch "/") with 47 in *. zbool; lia.
  - apply do_lower_slash_free. exact H.
Qed.

End Slash.

(** The loop skips the entries that the lowered name cannot equal. *)
Lemma sensitive_loop_filter (U : UnicodeData) (x : pystr)
      (keep : pystr -> bool) (files : list pystr) :
  (forall f, In f files -> keep f = false -> x <> Unicode.lower U f) ->
  sensitive_loop U x (filter keep files) = sensitive_loop U x files.
Proof.
  induction files as [|f files IH]; intros H; [reflexivity|].
  cbn [filter sensitive_loop].
  assert (sensitive_loop U x (filter keep files) = sensitive_loop U x files)
    as IH' by (apply IH; intros g Hg; apply H; right; exact Hg).
  destruct (keep f) eqn:K.
  - cbn [sensitive_loop]. rewrite IH'. reflexivity.
  - rewrite IH'. specialize (H f (or_introl eq_refl) K).
    apply Str_eqb_neq in H. rewrite H. reflexivity.
Qed.

(* ================================================================== *)
(** * The claims *)

(** C1. Every entry of [SENSITIVE_FILES] should be classified as sensitive
    when it is given as a path. The code does not do so for the entries
    [.aws/credentials] and [.aws/config]: the classifier compares the final
    component of the path, here [credentials] and [config], and neither is
    in the list. A request to read [/home/user/.aws/credentials] is allowed
    without a message. *)
Theorem C1_aws_entries_are_not_matched :
  forall (fl : pathlib.flavour) (U : UnicodeData),
    In (u ".aws/credentials") SENSITIVE_FILES /\
    classify fl U (u ".aws/credentials") = false /\
    In (u ".aws/config") SENSITIVE_FILES /\
    classify fl U (u ".aws/config") = false /\
    classify fl U (u "/home/user/.aws/credentials") = false /\
    run (Sample.runtime fl)
        (Sample.jb "{'file_path': '/home/user/.aws/credentials'}")
    = (allow_bytes, 0).
Proof.
  intros fl U.
  assert (forall x, existsb (Str.eqb x) SENSITIVE_FILES = true ->
                    In x SENSITIVE_FILES) as Hin.
  { intros x H. apply existsb_exists in H. destruct H as [y [Hy E]].
    apply Str_eqb_eq in E. subst. exact Hy. }
  repeat split; try (apply Hin; reflexivity);
    destruct fl; vm_compute; reflexivity.
Qed.

(** C8. Matching is equality of the lowercase forms, never containment: a
    path whose file name is not in the list up to case is classified as not
    sensitive, and so are the near misses [myconfig.json.bak],
    [config.json.bak] and [myconfig.json], on either host and whatever the
    character database. *)
Theorem C8_exact_match_only :
  (forall (fl : pathlib.flavour) (U : UnicodeData) (p : pystr),
      ~ sensitive_name U (get_filename_from_path fl p) ->
      classify fl U p = false) /\
  (forall (fl : pathlib.flavour) (U : UnicodeData),
      classify fl U (u "myconfig.json.bak") = false /\
      classify fl U (u "config.json.bak") = false /\
      classify fl U (u "myconfig.json") = false /\
      classify fl U (u "/etc/app/config.json.bak") = false).
Proof.
  split.
  - intros fl U p H. unfold classify.
    destruct (is_sensitive_file U (get_filename_from_path fl p)) eqn:E;
      [|reflexivity].
    exfalso. apply H. apply is_sensitive_file_iff. exact E.
  - intros fl U. repeat split; destruct fl; vm_compute; reflexivity.
Qed.

Lemma C8_witness :
  ~ sensitive_name Sample.ucd
      (get_filename_from_path pathlib.Posix (u "/home/user/notes.txt")) /\
  classify pathlib.Posix Sample.ucd (u "/home/user/notes.txt") = false.
Proof.
  assert (~ sensitive_name Sample.ucd
            (get_filename_from_path pathlib.Posix (u "/home/user/notes.txt")))
    as H.
  { intros H. apply is_sensitive_file_iff in H. vm_compute in H.
    discriminate H. }
  split; [exact H|].
  exact (proj1 C8_exact_match_only pathlib.Posix Sample.ucd
               (u "/home/user/notes.txt") H).
Defined.

(** C10. The four entries that hold a slash never match: a file name holds
    no slash, and neither does its lowercase form as long as no lowercase
    mapping of the character database produces one. So the classifier over
    the whole list and the classifier over the list without those entries
    agree on every path. *)
Theorem C10_path_entries_never_match :
  forall (fl : pathlib.flavour) (U : UnicodeData) (p : pystr),
    lowercase_never_slash U ->
    classify fl U p
    = is_sensitive_in U SENSITIVE_FILES_without_paths
                      (get_filename_from_path fl p).
Proof.
  intros fl U p HU. unfold classify, is_sensitive_file, is_sensitive_in.
  destruct (Str.truthy (get_filename_from_path fl p)); cbn [negb];
    [|reflexivity].
  unfold SENSITIVE_FILES_without_paths. symmetry.
  apply sensitive_loop_filter. intros f Hf Hk Heq.
  apply negb_false_iff in Hk. apply existsb_exists in Hk.
  destruct Hk as [e [He Hfe]]. apply Str_eqb_eq in Hfe. subst e.
  pose proof (lower_slash_free U HU _ (get_filename_slash_free fl p)) as Hfree.
  rewrite Heq, (lower_entry U f Hf) in Hfree. apply Hfree.
  assert (forallb (Str.contains (ch "/")) path_entries = true) as A
    by reflexivity.
  rewrite forallb_forall in A. specialize (A f He).
  destruct (Str.contains (ch "/") f) eqn:E; [|discriminate A].
  unfold Str.contains in E. apply existsb_exists in E.
  destruct E as [c [Hc Ec]]. apply Z.eqb_eq in Ec. subst c. exact Hc.
Qed.

Lemma sample_lowercase_never_slash : lowercase_never_slash Sample.ucd.
Proof.
  intros c Hc. cbn [lower_mapping Sample.ucd].
  repeat match goal with
         | |- context [if ?b then _ else _] => destruct b eqn:?
         end; try reflexivity.
  - apply contains_false. intros [H|[]].
    change (ch "/") with 47 in H.
    unfold Utf8.between in *.
    repeat match goal with
           | H : (_ || _) = true |- _ => apply orb_true_iff in H; destruct H
           | H : (_ && _) = true |- _ => apply andb_true_iff in H; destruct H
           | H : (_ <=? _) = true |- _ => apply Z.leb_le in H
           end; lia.
  - apply contains_false. intros [H|[]]. subst c. discriminate Hc.
Qed.

Lemma C10_witness :
  lowercase_never_slash Sample.ucd /\
  classify pathlib.Windows Sample.ucd (u "C:\Users\me\.ssh\ID_RSA")
  = is_sensitive_in Sample.ucd SENSITIVE_FILES_without_paths
      (get_filename_from_path pathlib.Windows (u "C:\Users\me\.ssh\ID_RSA")).
Proof.
  split; [exact sample_lowercase_never_slash|].
  apply (C10_path_entries_never_match pathlib.Windows Sample.ucd
           (u "C:\Users\me\.ssh\ID_RSA")).
  exact sample_lowercase_never_slash.
Defined.

(* ------------------------------------------------------------------ *)
(** ** Backslashes on a POSIX host *)

Lemma last_field_decompose (sp : Z) (s : pystr) :
  Str.contains sp s = false \/
  exists s1 s2, s = s1 ++ sp :: s2 /\ Str.contains sp s2 = false.
Proof.
  induction s as [|c s IH]; [left; reflexivity|].
  destruct IH as [H|[s1 [s2 [-> H]]]].
  - destruct (Z.eqb_spec sp c) as [->|Hne].
    + right. exists [], s. auto.
    + left. unfold Str.contains in *. cbn [existsb]. rewrite H.
      apply Z.eqb_neq in Hne. rewrite Hne. reflexivity.
  - right. exists (c :: s1), s2. auto.
Qed.

(** On a POSIX host the file name of [d\v] still holds the backslash. *)
Lemma get_filename_posix_backslash (d v : pystr) :
  plain_name v = true ->
  exists x, get_filename_from_path pathlib.Posix (d ++ ch "\" :: v)
            = x ++ ch "\" :: v.
Proof.
  intros Hv. unfold plain_name in Hv. repeat rewrite andb_true_iff in Hv.
  destruct Hv as [[[Hc H1] H2] H3]. apply negb_true_iff in H1.
  rewrite get_filename_posix.
  assert (forall x, is_component (x ++ ch "\" :: v) = true) as Hcomp.
  { intros x. unfold is_component. destruct v as [|c v]; [discriminate Hc|].
    destruct x as [|a [|b x]]; reflexivity || (cbn [app Str.truthy andb];
      change (u ".") with [46]; cbn [Str.eqb]; rewrite ?andb_false_r;
      reflexivity). }
  assert (forall x, Str.contains (ch "/") x = false ->
                    Str.contains (ch "/") (x ++ ch "\" :: v) = false) as Hfree.
  { intros x Hx. rewrite contains_app, Hx. cbn [orb].
    unfold Str.contains in *. cbn [existsb]. rewrite H1. reflexivity. }
  destruct (last_field_decompose (ch "/") d) as [H|[s1 [s2 [-> H]]]].
  - exists d. apply is_component_no_sep_split; auto.
  - exists s2. rewrite <- app_assoc. cbn [app].
    apply (final_component_app (ch "/") s1 (s2 ++ ch "\" :: v)); auto.
Qed.

Lemma backslash_name_not_sensitive (U : UnicodeData) (name : pystr) :
  In (ch "\") name -> is_sensitive_file U name = false.
Proof.
  intros Hin. destruct (is_sensitive_file U name) eqn:E; [|reflexivity].
  exfalso. apply is_sensitive_file_iff in E. destruct E as [e [He Hl]].
  rewrite (lower_entry U e He) in Hl.
  assert (In (ch "\") (Unicode.lower U name)) as Hlow
    by (apply lower_keeps; [discriminate | reflexivity | exact Hin]).
  rewrite Hl in Hlow.
  assert (forallb (fun f => negb (Str.contains (ch "\") f)) SENSITIVE_FILES
          = true) as A by reflexivity.
  rewrite forallb_forall in A. specialize (A e He).
  apply negb_true_iff, contains_false in A. contradiction.
Qed.

(** C2, the claim as it is stated, fails on a POSIX host: there the
    backslash is no separator, so the file name of [a\b\.env] is the whole
    string. *)
Lemma C2_counterexample :
  classify pathlib.Posix Sample.ucd (u "a\b\.env") = false.
Proof. vm_compute. reflexivity. Qed.

(** C2, amended. For every casing [v] of an entry without a slash:
    [v] alone is sensitive on either host; so is [d/v] on a POSIX host for
    every prefix [d]; so are [d/v] and [d\v] on a Windows host for every
    prefix [d] with which the path does not begin with two separators. On a
    POSIX host [d\v] is not sensitive. *)
Theorem C2_prefix_invariance :
  forall (U : UnicodeData) (f v : pystr),
    In f SENSITIVE_FILES -> Str.contains (ch "/") f = false ->
    casing_variant f v ->
    (forall fl, classify fl U v = true) /\
    (forall d, classify pathlib.Posix U (d ++ ch "/" :: v) = true) /\
    (forall d s,
        s = ch "/" \/ s = ch "\" ->
        Str.startswith (u "\\") (Str.replace (ch "/") (ch "\") (d ++ s :: v))
        = false ->
        classify pathlib.Windows U (d ++ s :: v) = true) /\
    (forall d, classify pathlib.Posix U (d ++ ch "\" :: v) = false).
Proof.
  intros U f v Hin Hs Hv.
  assert (plain_name v = true) as Hp.
  { rewrite (variant_plain_name _ _ Hv). exact (proj1 (entry_plain f Hin Hs)). }
  assert (is_sensitive_file U v = true) as Hsens
    by exact (proj2 (classify_casing pathlib.Posix U f v Hin Hs Hv)).
  assert (Hp' := Hp). unfold plain_name in Hp'.
  repeat rewrite andb_true_iff in Hp'. destruct Hp' as [[[Hc H1] H2] H3].
  apply negb_true_iff in H1.
  repeat split.
  - intros fl. unfold classify. rewrite get_filename_plain; assumption.
  - intros d. unfold classify. rewrite get_filename_posix.
    rewrite final_component_app; assumption.
  - intros d s Hsep Hunc. unfold classify.
    rewrite get_filename_windows_prefix; assumption.
  - intros d. unfold classify.
    destruct (get_filename_posix_backslash d v Hp) as [x ->].
    apply backslash_name_not_sensitive. apply in_or_app. right. left.
    reflexivity.
Qed.

Lemma C2_witness :
  In (u ".env") SENSITIVE_FILES /\
  Str.contains (ch "/") (u ".env") = false /\
  casing_variant (u ".env") (u ".Env") /\
  classify pathlib.Posix Sample.ucd (u ".Env") = true /\
  classify pathlib.Posix Sample.ucd (u "a/b/.Env") = true /\
  classify pathlib.Windows Sample.ucd (u "a\b\.Env") = true /\
  classify pathlib.Windows Sample.ucd (u "a/b/.Env") = true /\
  classify pathlib.Posix Sample.ucd (u "a\b\.Env") = false.
Proof.
  assert (In (u ".env") SENSITIVE_FILES) as Hin by (left; reflexivity).
  assert (Str.contains (ch "/") (u ".env") = false) as Hs by reflexivity.
  assert (casing_variant (u ".env") (u ".Env")) as Hv
    by (repeat constructor).
  destruct (C2_prefix_invariance Sample.ucd (u ".env") (u ".Env") Hin Hs Hv)
    as [H0 [H1 [H2 H3]]].
  split; [exact Hin|]. split; [exact Hs|]. split; [exact Hv|].
  split; [|split; [|split; [|split]]].
  - exact (H0 pathlib.Posix).
  - exact (H1 (u "a/b")).
  - apply (H2 (u "a\b") (ch "\")); [right; reflexivity | reflexivity].
  - apply (H2 (u "a/b") (ch "/")); [left; reflexivity | reflexivity].
  - exact (H3 (u "a\b")).
Defined.

(* ------------------------------------------------------------------ *)
(** ** Paths without a name *)

Lemma windows_only_separators (p : pystr) :
  Forall (fun c => c = ch "\") p ->
  final_component (ch "\") (snd (pathlib.windows_splitroot p)) = [].
Proof.
  intros H. destruct H as [|a p Ha H]; [reflexivity|]. subst a.
  destruct H as [|b p Hb H]; [reflexivity|]. subst b.
  destruct H as [|c p Hc H]; [reflexivity|]. subst c.
  assert (pathlib.windows_splitroot (ch "\" :: ch "\" :: ch "\" :: p)
          = ([], u "\", Str.lstrip (ch "\") p)) as -> by reflexivity.
  cbn [snd]. rewrite final_component_lstrip.
  apply final_component_seps. exact H.
Qed.

Lemma replace_only_separators (p : pystr) :
  Forall (fun c => c = ch "/" \/ c = ch "\") p ->
  Forall (fun c => c = ch "\") (Str.replace (ch "/") (ch "\") p).
Proof.
  induction 1 as [|c p Hc Hp IH]; [constructor|].
  cbn [Str.replace map]. constructor; [|exact IH].
  destruct Hc; subst c; reflexivity.
Qed.

(** A path made of separators only has no file name. *)
Lemma get_filename_only_separators (fl : pathlib.flavour) (p : pystr) :
  Forall (fun c => c = ch "/" \/ (fl = pathlib.Windows /\ c = ch "\")) p ->
  get_filename_from_path fl p = [].
Proof.
  intros H. destruct fl.
  - rewrite get_filename_posix. apply final_component_seps.
    eapply Forall_impl; [|exact H]. cbv beta. intros c [Hc|[Hc _]];
      [exact Hc | discriminate Hc].
  - unfold get_filename_from_path, pathlib.Path.
    destruct p as [|c0 p0] eqn:Ep; [reflexivity|]. cbn [Str.truthy negb].
    rewrite name_parse_parts by discriminate.
    cbn [pathlib.altsep pathlib.sep pathlib.splitroot]. cbv zeta.
    apply windows_only_separators, replace_only_separators.
    eapply Forall_impl; [|exact H]. cbv beta. tauto.
Qed.

(** C3, the claim as it is stated, fails: [pathlib] drops a separator at
    the end of a path, so the file name of [.env/] is [.env]. *)
Lemma C3_counterexample :
  classify pathlib.Posix Sample.ucd (u ".env/") = true.
Proof. vm_compute. reflexivity. Qed.

(** C3, amended. The empty path is not sensitive, and neither is a path
    made of separators only: their file name is empty. A separator at the
    end of a path does not empty the file name: on a POSIX host [p/] is
    classified as [p] is, and [.env/] is sensitive on either host. *)
Theorem C3_no_file_name :
  forall (fl : pathlib.flavour) (U : UnicodeData),
    (get_filename_from_path fl [] = [] /\ classify fl U [] = false) /\
    (forall p,
        Forall (fun c => c = ch "/" \/ (fl = pathlib.Windows /\ c = ch "\")) p ->
        get_filename_from_path fl p = [] /\ classify fl U p = false) /\
    (forall p,
        get_filename_from_path pathlib.Posix (p ++ [ch "/"])
        = get_filename_from_path pathlib.Posix p /\
        classify pathlib.Posix U (p ++ [ch "/"]) = classify pathlib.Posix U p) /\
    classify fl U (u ".env/") = true.
Proof.
  intros fl U. split; [split; reflexivity|]. split; [|split].
  - intros p H. unfold classify.
    rewrite (get_filename_only_separators fl p H). split; reflexivity.
  - intros p. unfold classify. rewrite !get_filename_posix.
    rewrite final_component_trailing_sep. split; reflexivity.
  - destruct fl; vm_compute; reflexivity.
Qed.

Lemma C3_witness :
  Forall (fun c => c = ch "/" \/ (pathlib.Windows = pathlib.Windows /\ c = ch "\"))
         (u "/\/") /\
  get_filename_from_path pathlib.Windows (u "/\/") = [] /\
  classify pathlib.Windows Sample.ucd (u "/\/") = false.
Proof.
  assert (Forall (fun c => c = ch "/"
                           \/ (pathlib.Windows = pathlib.Windows /\ c = ch "\"))
                 (u "/\/")) as H.
  { repeat constructor; (left; reflexivity) || (right; split; reflexivity). }
  split; [exact H|].
  exact (proj1 (proj2 (C3_no_file_name pathlib.Windows Sample.ucd))
               (u "/\/") H).
Defined.

(* ------------------------------------------------------------------ *)
(** ** The driver *)

(** C4, the claim as it is stated, fails for a [file_path] that is no
    string but true in Python's sense: [Path(1)] raises [TypeError], and
    the outer handler answers with a message. *)
Lemma C4_counterexample :
  let input := Sample.jb "{'file_path': 1}" in
  let R := Sample.runtime pathlib.Posix in
  (exists text, Utf8.decode input = Some text /\
                json_loads R text = inr (JDict [(u "file_path", JInt 1)])) /\
  serialise (allow_with_message
               (u "檢查過程中發生錯誤: expected str, bytes or os.PathLike object, not int"))
  = Some (fst (run R input)) /\
  fst (run R input) <> allow_bytes.
Proof.
  cbv zeta. split; [|split].
  - eexists. split; vm_compute; reflexivity.
  - vm_compute. reflexivity.
  - vm_compute. discriminate.
Qed.

(** C4, amended. For a JSON object whose [file_path] is absent or false in
    Python's sense (the empty string, [null], [false], a zero, an empty list
    or object) the run writes [{"permission": "allow"}] and nothing else;
    for a [file_path] that is true and no string it writes an [allow] with
    the text of the [TypeError] as message. *)
Theorem C4_missing_or_invalid_file_path :
  forall (R : Runtime) (input : pybytes) (text : pystr)
         (items : list (pystr * json)),
    Utf8.decode input = Some text ->
    json_loads R text = inr (JDict items) ->
    let file_path := match Json.lookup (u "file_path") items with
                     | Some v => v
                     | None => JStr []
                     end in
    (Json.truthy file_path = false -> run R input = (allow_bytes, 0)) /\
    (Json.truthy file_path = true -> (forall s, file_path <> JStr s) ->
     exists out,
       serialise (allow_with_message
                    (u "檢查過程中發生錯誤: " ++ not_a_path_text file_path))
       = Some out /\
       run R input = (out, 0)).
Proof.
  intros R input text items Hdec Hload file_path.
  assert (decide R input =
          if negb (Json.truthy file_path) then allow_result
          else match file_path with
               | JStr s =>
                   let filename := get_filename_from_path (host R) s in
                   if is_sensitive_file (unicodedata R) filename
                   then deny_with_message (denial_message filename)
                   else allow_result
               | _ => allow_with_message
                        (u "檢查過程中發生錯誤: " ++ not_a_path_text file_path)
               end) as Hd.
  { unfold decide. rewrite Hdec, Hload. reflexivity. }
  split.
  - intros Ht. apply run_decide. rewrite Hd, Ht. reflexivity.
  - intros Ht Hns.
    assert (decide R input = allow_with_message
              (u "檢查過程中發生錯誤: " ++ not_a_path_text file_path)) as Hd'.
    { rewrite Hd, Ht. cbn [negb].
      destruct file_path; try reflexivity. exfalso. eapply Hns. reflexivity. }
    destruct (allow_with_message_serialises
                (u "檢查過程中發生錯誤: " ++ not_a_path_text file_path))
      as [out Hout].
    { unfold not_a_path_text. destruct file_path; reflexivity. }
    exists out. split; [exact Hout|]. apply run_decide. rewrite Hd'. exact Hout.
Qed.

Lemma C4_witness :
  let R := Sample.runtime pathlib.Windows in
  let input := Sample.jb "{'other': 'x', 'file_path': null}" in
  let text := Sample.jt "{'other': 'x', 'file_path': null}" in
  let items := [(u "other", JStr (u "x")); (u "file_path", JNone)] in
  let input' := Sample.jb "{'file_path': [1]}" in
  let text' := Sample.jt "{'file_path': [1]}" in
  let items' := [(u "file_path", JList [JInt 1])] in
  (Utf8.decode input = Some text /\ json_loads R text = inr (JDict items) /\
   Json.truthy JNone = false /\
   run R input = (allow_bytes, 0)) /\
  (Utf8.decode input' = Some text' /\ json_loads R text' = inr (JDict items') /\
   Json.truthy (JList [JInt 1]) = true /\
   (forall s, JList [JInt 1] <> JStr s) /\
   exists out,
     serialise (allow_with_message
                  (u "檢查過程中發生錯誤: " ++ not_a_path_text (JList [JInt 1])))
     = Some out /\
     run R input' = (out, 0)).
Proof.
  intros R input text items input' text' items'.
  assert (Utf8.decode input = Some text) as Hdec by (vm_compute; reflexivity).
  assert (json_loads R text = inr (JDict items)) as Hload
    by (vm_compute; reflexivity).
  assert (Utf8.decode input' = Some text') as Hdec'
    by (vm_compute; reflexivity).
  assert (json_loads R text' = inr (JDict items')) as Hload'
    by (vm_compute; reflexivity).
  assert (forall s, JList [JInt 1] <> JStr s) as Hns by (intros s; discriminate).
  split.
  - split; [exact Hdec|]. split; [exact Hload|]. split; [reflexivity|].
    exact (proj1 (C4_missing_or_invalid_file_path R input text items Hdec Hload)
                 eq_refl).
  - split; [exact Hdec'|]. split; [exact Hload'|]. split; [reflexivity|].
    split; [exact Hns|].
    exact (proj2 (C4_missing_or_invalid_file_path R input' text' items'
                    Hdec' Hload') eq_refl Hns).
Defined.

(** C5. For a well-formed request (decodable bytes, a JSON object, a string
    [file_path]) the run denies exactly when the file name of the path is
    in the list up to case: then it writes a [deny] whose message holds
    that file name; otherwise it writes [{"permission": "allow"}]. Either
    way the exit status is 0. *)
Theorem C5_deny_iff_sensitive :
  forall (R : Runtime) (input : pybytes) (text : pystr)
         (items : list (pystr * json)) (p : pystr),
    Utf8.decode input = Some text ->
    json_loads R text = inr (JDict items) ->
    Json.lookup (u "file_path") items = Some (JStr p) ->
    let filename := get_filename_from_path (host R) p in
    (sensitive_name (unicodedata R) filename ->
     exists message out,
       (exists before after, message = before ++ filename ++ after) /\
       serialise (deny_with_message message) = Some out /\
       run R input = (out, 0)) /\
    (~ sensitive_name (unicodedata R) filename ->
     run R input = (allow_bytes, 0)).
Proof.
  intros R input text items p Hdec Hload Hfield filename.
  assert (decide R input =
          if is_sensitive_file (unicodedata R) filename
          then deny_with_message (denial_message filename)
          else allow_result) as Hd.
  { unfold decide. rewrite Hdec, Hload, Hfield.
    destruct p as [|c p]; [reflexivity|]. reflexivity. }
  split.
  - intros Hs. apply is_sensitive_file_iff in Hs.
    destruct (deny_with_message_serialises (denial_message filename))
      as [out Hout].
    { unfold denial_message. rewrite !well_formed_app.
      rewrite (sensitive_well_formed _ _ Hs). reflexivity. }
    exists (denial_message filename), out. split; [|split].
    + eexists _, _. reflexivity.
    + exact Hout.
    + apply run_decide. rewrite Hd, Hs. exact Hout.
  - intros Hn. apply run_decide. rewrite Hd.
    destruct (is_sensitive_file (unicodedata R) filename) eqn:E;
      [|reflexivity].
    exfalso. apply Hn. apply is_sensitive_file_iff. exact E.
Qed.

Lemma C5_witness :
  let R := Sample.runtime pathlib.Posix in
  let input := Sample.jb "{'file_path': '/home/user/.ENV'}" in
  let text := Sample.jt "{'file_path': '/home/user/.ENV'}" in
  let items := [(u "file_path", JStr (u "/home/user/.ENV"))] in
  Utf8.decode input = Some text /\
  json_loads R text = inr (JDict items) /\
  Json.lookup (u "file_path") items = Some (JStr (u "/home/user/.ENV")) /\
  sensitive_name (unicodedata R)
                 (get_filename_from_path (host R) (u "/home/user/.ENV")) /\
  exists message out,
    (exists before after, message = before ++ u ".ENV" ++ after) /\
    serialise (deny_with_message message) = Some out /\
    run R input = (out, 0).
Proof.
  intros R input text items.
  assert (Utf8.decode input = Some text) as Hdec by (vm_compute; reflexivity).
  assert (json_loads R text = inr (JDict items)) as Hload
    by (vm_compute; reflexivity).
  assert (Json.lookup (u "file_path") items = Some (JStr (u "/home/user/.ENV")))
    as Hfield by reflexivity.
  assert (sensitive_name (unicodedata R)
            (get_filename_from_path (host R) (u "/home/user/.ENV"))) as Hs.
  { exists (u ".env"). split; [left; reflexivity | reflexivity]. }
  split; [exact Hdec|]. split; [exact Hload|]. split; [exact Hfield|].
  split; [exact Hs|].
  exact (proj1 (C5_deny_iff_sensitive R input text items (u "/home/user/.ENV")
                  Hdec Hload Hfield) Hs).
Defined.

(* ------------------------------------------------------------------ *)
(** ** Every input *)

Section EveryInput.
Variable R : Runtime.
Hypothesis HR : texts_well_formed R.

(** The dictionary of [decide] can always be encoded. *)
Lemma decide_serialises (input : pybytes) :
  exists out, serialise (decide R input) = Some out.
Proof.
  destruct HR as [Hdec Hload]. unfold decide.
  destruct (Utf8.decode input) as [text|].
  2:{ apply allow_with_message_serialises. rewrite well_formed_app, Hdec.
      reflexivity. }
  destruct (json_loads R text) as [e|data] eqn:El.
  - destruct (is_JSONDecodeError e);
      apply allow_with_message_serialises;
      rewrite well_formed_app, (Hload _ _ El); reflexivity.
  - destruct data as [| | | | | |items];
      try (apply allow_with_message_serialises; reflexivity).
    set (file_path := match Json.lookup (u "file_path") items with
                      | Some v => v
                      | None => JStr []
                      end).
    destruct (Json.truthy file_path); cbn [negb];
      [|exists allow_bytes; reflexivity].
    destruct file_path as [| | | |s| |];
      try (apply allow_with_message_serialises; reflexivity).
    cbv zeta.
    destruct (is_sensitive_file (unicodedata R)
                (get_filename_from_path (host R) s)) eqn:Es;
      [|exists allow_bytes; reflexivity].
    apply deny_with_message_serialises. unfold denial_message.
    rewrite !well_formed_app, (sensitive_well_formed _ _ Es). reflexivity.
Qed.

(** On a faulty input [decide] is an [allow] with a message that is not
    empty; on any other input it is a plain [allow] or a [deny] with a
    message that is not empty. *)
Lemma decide_shape (input : pybytes) :
  (faulty R input /\
   exists message, message <> [] /\
                   decide R input = allow_with_message message) \/
  (~ faulty R input /\
   (decide R input = allow_result \/
    exists message, message <> [] /\
                    decide R input = deny_with_message message)).
Proof.
  unfold decide, faulty.
  destruct (Utf8.decode input) as [text|].
  2:{ left. split; [exact I|]. eexists. split; [|reflexivity]. discriminate. }
  destruct (json_loads R text) as [e|data].
  - left. split; [exact I|].
    destruct (is_JSONDecodeError e); eexists; (split; [|reflexivity]);
      discriminate.
  - destruct data as [| | | | | |items];
      try (left; split; [exact I|]; eexists; split; [|reflexivity];
           discriminate).
    destruct (Json.lookup (u "file_path") items) as [v|];
      [|right; split; [tauto | left; reflexivity]].
    destruct v as [|b|n|x|s|l|d];
      try (right; split; [intros H; discriminate H | left; reflexivity]).
    + destruct b; [left | right]; cbn [Json.truthy negb].
      * split; [reflexivity|]. eexists. split; [|reflexivity]. discriminate.
      * split; [intros H; discriminate H | left; reflexivity].
    + destruct (Json.truthy (JInt n)) eqn:E; [left | right]; cbn [negb].
      * split; [reflexivity|]. eexists. split; [|reflexivity]. discriminate.
      * split; [intros H; discriminate H | left; reflexivity].
    + destruct (Json.truthy (JFloat x)) eqn:E; [left | right]; cbn [negb].
      * split; [reflexivity|]. eexists. split; [|reflexivity]. discriminate.
      * split; [intros H; discriminate H | left; reflexivity].
    + right. split; [tauto|].
      destruct (Json.truthy (JStr s)); cbn [negb]; [|left; reflexivity].
      cbv zeta.
      destruct (is_sensitive_file (unicodedata R)
                  (get_filename_from_path (host R) s));
        [right | left; reflexivity].
      eexists. split; [|reflexivity]. discriminate.
    + destruct (Json.truthy (JList l)) eqn:E; [left | right]; cbn [negb].
      * split; [reflexivity|]. eexists. split; [|reflexivity]. discriminate.
      * split; [intros H; discriminate H | left; reflexivity].
    + destruct (Json.truthy (JDict d)) eqn:E; [left | right]; cbn [negb].
      * split; [reflexivity|]. eexists. split; [|reflexivity]. discriminate.
      * split; [intros H; discriminate H | left; reflexivity].
Qed.

End EveryInput.

Lemma sample_texts_well_formed (fl : pathlib.flavour) :
  texts_well_formed (Sample.runtime fl).
Proof.
  split.
  - intros b. reflexivity.
  - intros s e. cbn [json_loads Sample.runtime]. unfold Sample.loads.
    destruct (Sample.value _ s) as [[v rest]|].
    + destruct (Sample.skip_ws rest); intros [= <-]; reflexivity.
    + intros [= <-]. reflexivity.
Qed.

(** C6. Let the texts of the runtime's exceptions be well-formed strings.
    Then for input that is not UTF-8, that the JSON decoder rejects, or that
    makes [main] fail later (a document that is no object, a [file_path]
    that is true and no string), the run writes an [allow] with a message
    that is not empty; and on every input whatsoever no exception leaves
    [main] and the exit status is 0. *)
Theorem C6_errors_fail_open :
  forall (R : Runtime),
    texts_well_formed R ->
    forall input : pybytes,
      (faulty R input ->
       exists message out,
         message <> [] /\
         serialise (allow_with_message message) = Some out /\
         run R input = (out, 0)) /\
      (exists w, main R {| stdin := input; stdout := [] |} = (inr tt, w)) /\
      snd (run R input) = 0.
Proof.
  intros R HR input.
  destruct (decide_serialises R HR input) as [out Hout].
  split; [|split].
  - intros Hf.
    destruct (decide_shape R input) as [[_ [m [Hm Hd]]]|[Hn _]];
      [|contradiction].
    exists m, out. split; [exact Hm|]. split.
    + rewrite <- Hd. exact Hout.
    + apply run_decide. exact Hout.
  - eexists. apply (main_decide R {| stdin := input; stdout := [] |} out).
    exact Hout.
  - rewrite (run_decide R input out Hout). reflexivity.
Qed.

Lemma C6_witness :
  let R := Sample.runtime pathlib.Posix in
  texts_well_formed R /\
  faulty R (Sample.b "not valid json") /\
  faulty R [0xFF; 0xFE] /\
  (exists message out,
      message <> [] /\
      serialise (allow_with_message message) = Some out /\
      run R (Sample.b "not valid json") = (out, 0)) /\
  (exists message out,
      message <> [] /\
      serialise (allow_with_message message) = Some out /\
      run R [0xFF; 0xFE] = (out, 0)).
Proof.
  intros R.
  assert (texts_well_formed R) as HR by apply sample_texts_well_formed.
  assert (faulty R (Sample.b "not valid json")) as H1 by exact I.
  assert (faulty R [0xFF; 0xFE]) as H2 by exact I.
  split; [exact HR|]. split; [exact H1|]. split; [exact H2|]. split.
  - exact (proj1 (C6_errors_fail_open R HR (Sample.b "not valid json")) H1).
  - exact (proj1 (C6_errors_fail_open R HR [0xFF; 0xFE]) H2).
Defined.

(** C7. Let the texts of the runtime's exceptions be well-formed strings.
    Then on every input the run writes one JSON object and no more, of one
    of three shapes: [{"permission": "allow"}] on an input that is not
    faulty; an [allow] with a message that is not empty on a faulty input;
    a [deny] with a message that is not empty. A [user_message] thus
    appears only with an error or a denial. *)
Theorem C7_output_shape :
  forall (R : Runtime),
    texts_well_formed R ->
    forall input : pybytes,
    exists result out,
      serialise result = Some out /\
      run R input = (out, 0) /\
      ((result = allow_result /\ ~ faulty R input) \/
       (exists message,
           message <> [] /\ result = allow_with_message message /\
           faulty R input) \/
       (exists message,
           message <> [] /\ result = deny_with_message message /\
           ~ faulty R input)).
Proof.
  intros R HR input.
  destruct (decide_serialises R HR input) as [out Hout].
  exists (decide R input), out. split; [exact Hout|].
  split; [apply run_decide; exact Hout|].
  destruct (decide_shape R input) as [[Hf [m [Hm Hd]]]|[Hn [Hd|[m [Hm Hd]]]]].
  - right. left. exists m. auto.
  - left. auto.
  - right. right. exists m. auto.
Qed.

Lemma C7_witness :
  let R := Sample.runtime pathlib.Posix in
  let input := Sample.jb "{'file_path': '/home/user/notes.txt'}" in
  texts_well_formed R /\
  exists result out,
    serialise result = Some out /\
    run R input = (out, 0) /\
    ((result = allow_result /\ ~ faulty R input) \/
     (exists message,
         message <> [] /\ result = allow_with_message message /\
         faulty R input) \/
     (exists message,
         message <> [] /\ result = deny_with_message message /\
         ~ faulty R input)).
Proof.
  intros R input.
  assert (texts_well_formed R) as HR by apply sample_texts_well_formed.
  split; [exact HR|].
  exact (C7_output_shape R HR input).
Defined.

(* ------------------------------------------------------------------ *)
(** ** Determinism *)


Lemma writes_only_ret {A} (a : A) : writes_only (ret a).
Proof.
  exists (inr a), []. intros [i o]. unfold ret. cbn. rewrite app_nil_r.
  reflexivity.
Qed.

Lemma writes_only_raise {A} (e : exception) : writes_only (@raise A e).
Proof.
  exists (inl e), []. intros [i o]. unfold raise. cbn. rewrite app_nil_r.
  reflexivity.
Qed.

Lemma writes_only_write (b : pybytes) : writes_only (stdout_buffer_write b).
Proof. exists (inr tt), b. intros w. reflexivity. Qed.

Lemma writes_only_bind {A B} (m : M A) (k : A -> M B) :
  writes_only m -> (forall a, writes_only (k a)) -> writes_only (bind m k).
Proof.
  intros [r [out Hm]] Hk. destruct r as [e|a].
  - exists (inl e), out. intros w. unfold bind. rewrite Hm. reflexivity.
  - destruct (Hk a) as [r' [out' Hk']]. exists r', (out ++ out').
    intros w. unfold bind. rewrite Hm, Hk'. cbn [stdin stdout].
    rewrite app_assoc. reflexivity.
Qed.

Lemma writes_only_try_except {A} (m : M A) (catches : exception -> bool)
      (handler : exception -> M A) :
  writes_only m -> (forall e, writes_only (handler e)) ->
  writes_only (try_except m catches handler).
Proof.
  intros [r [out Hm]] Hh. destruct r as [e|a].
  - destruct (catches e) eqn:Ec.
    + destruct (Hh e) as [r' [out' Hh']]. exists r', (out ++ out').
      intros w. unfold try_except. rewrite Hm, Ec, Hh'. cbn [stdin stdout].
      rewrite app_assoc. reflexivity.
    + exists (inl e), out. intros w. unfold try_except. rewrite Hm, Ec.
      reflexivity.
  - exists (inr a), out. intros w. unfold try_except. rewrite Hm. reflexivity.
Qed.

Create HintDb writes discriminated.
#[local] Hint Resolve writes_only_ret writes_only_raise writes_only_write
  writes_only_bind writes_only_try_except : writes.

Section Frame.
Variable R : Runtime.

Lemma writes_only_write_result (result : list (pystr * pystr)) :
  writes_only (write_result R result).
Proof.
  unfold write_result, str_encode, stdout_buffer_flush.
  destruct (Utf8.encode (Json.dumps result)); auto 6 with writes.
Qed.

Lemma writes_only_bytes_decode (b : pybytes) : writes_only (bytes_decode R b).
Proof. unfold bytes_decode. destruct (Utf8.decode b); auto with writes. Qed.

Lemma writes_only_data_get (data : json) (key : pystr) (default : json) :
  writes_only (data_get data key default).
Proof. unfold data_get. destruct data; auto with writes. Qed.

Lemma writes_only_call_get_filename (file_path : json) :
  writes_only (call_get_filename_from_path R file_path).
Proof.
  unfold call_get_filename_from_path.
  destruct (Json.truthy file_path); cbn [negb]; [|auto with writes].
  destruct file_path; auto with writes.
Qed.

#[local] Hint Resolve writes_only_write_result writes_only_bytes_decode
  writes_only_data_get writes_only_call_get_filename : writes.

(** [main_body] reads standard input once, to its end; the rest of it
    only writes. *)
Lemma main_body_frame (raw : pybytes) :
  exists (r : exception + unit) (out : pybytes),
    forall w, stdin w = raw ->
              main_body R w
              = (r, {| stdin := []; stdout := stdout w ++ out |}).
Proof.
  unfold main_body.
  match goal with
  | |- context [bind stdin_buffer_read ?k] =>
      assert (writes_only (k raw)) as [r [out H]]
  end.
  { cbv beta. apply writes_only_bind; [auto with writes|].
    intros input_data. apply writes_only_bind.
    - apply writes_only_try_except; [|auto with writes].
      destruct (json_loads R input_data) as [e|data].
      + apply (writes_only_raise e).
      + apply (writes_only_ret (Some data)).
    - intros [data|]; [|auto with writes].
      apply writes_only_bind; [auto with writes|]. intros file_path.
      destruct (Json.truthy file_path); cbn [negb]; auto with writes. }
  exists r, out. intros w Hw. unfold bind at 1, stdin_buffer_read.
  rewrite Hw, H. reflexivity.
Qed.

Lemma main_frame (raw : pybytes) :
  exists (r : exception + unit) (out : pybytes),
    forall w, stdin w = raw ->
              main R w = (r, {| stdin := []; stdout := stdout w ++ out |}).
Proof.
  destruct (main_body_frame raw) as [r [out H]]. unfold main, try_except.
  destruct r as [e|a].
  - destruct (is_Exception e) eqn:Ec.
    + destruct (writes_only_write_result
                  [(u "permission", u "allow");
                   (u "user_message", u "檢查過程中發生錯誤: " ++ exc_str e)])
        as [r' [out' H']].
      exists r', (out ++ out'). intros w Hw. rewrite (H w Hw), Ec, H'.
      cbn [stdin stdout]. rewrite app_assoc. reflexivity.
    + exists (inl e), out. intros w Hw. rewrite (H w Hw), Ec. reflexivity.
  - exists (inr a), out. intros w Hw. rewrite (H w Hw). reflexivity.
Qed.

End Frame.

(** C9. A run is a function of the bytes on standard input: in two worlds
    with the same input, whatever else they hold, [main] returns the same
    result and appends the same bytes to standard output, the bytes of
    [run] on that input; and two runs on the same input give the same
    output and exit status. *)
Theorem C9_deterministic :
  forall (R : Runtime) (w1 w2 : World),
    stdin w1 = stdin w2 ->
    fst (main R w1) = fst (main R w2) /\
    stdout (snd (main R w1)) = stdout w1 ++ fst (run R (stdin w1)) /\
    stdout (snd (main R w2)) = stdout w2 ++ fst (run R (stdin w1)) /\
    run R (stdin w1) = run R (stdin w2).
Proof.
  intros R w1 w2 Hw. destruct (main_frame R (stdin w1)) as [r [out H]].
  assert (fst (run R (stdin w1)) = out) as Hrun.
  { unfold run. rewrite (H {| stdin := stdin w1; stdout := [] |} eq_refl).
    destruct r; reflexivity. }
  rewrite (H w1 eq_refl), (H w2 (eq_sym Hw)), Hrun, <- Hw. auto.
Qed.

Lemma C9_witness :
  let R := Sample.runtime pathlib.Posix in
  let input := Sample.jb "{'file_path': 'secrets.json'}" in
  let w1 := {| stdin := input; stdout := [] |} in
  let w2 := {| stdin := input; stdout := Sample.b "earlier output" |} in
  stdin w1 = stdin w2 /\
  fst (main R w1) = fst (main R w2) /\
  stdout (snd (main R w1)) = stdout w1 ++ fst (run R (stdin w1)) /\
  stdout (snd (main R w2)) = stdout w2 ++ fst (run R (stdin w1)) /\
  run R (stdin w1) = run R (stdin w2).
Proof.
  intros R input w1 w2.
  assert (stdin w1 = stdin w2) as H by reflexivity.
  split; [exact H|]. exact (C9_deterministic R w1 w2 H).
Defined.

(* ------------------------------------------------------------------ *)
(** ** The scenarios of the specification, run from bytes to bytes *)

Example scenario_sensitive_file :
  run (Sample.runtime pathlib.Posix)
      (Sample.jb "{'file_path': '/home/user/.env'}")
  = (Sample.jb "{'permission': 'deny', 'user_message': '無法讀取敏感檔案：.env。此檔案包含敏感資訊，為保護您的資料安全，已阻止讀取。'}",
     0).
Proof. vm_compute. reflexivity. Qed.

Example scenario_safe_file :
  run (Sample.runtime pathlib.Posix)
      (Sample.jb "{'file_path': '/home/user/notes.txt'}")
  = (Sample.jb "{'permission': 'allow'}", 0).
Proof. vm_compute. reflexivity. Qed.

Example scenario_missing_field :
  run (Sample.runtime pathlib.Posix) (Sample.jb "{}")
  = (Sample.jb "{'permission': 'allow'}", 0).
Proof. vm_compute. reflexivity. Qed.

Example scenario_malformed_input :
  run (Sample.runtime pathlib.Posix) (Sample.b "not valid json")
  = (Sample.jb "{'permission': 'allow', 'user_message': 'JSON 解析錯誤: Expecting value'}",
     0).
Proof. vm_compute. reflexivity. Qed.

Example scenario_windows_path :
  run (Sample.runtime pathlib.Windows)
      (Sample.jb "{'file_path': 'C:\\Users\\me\\Secrets.JSON'}")
  = (Sample.jb "{'permission': 'deny', 'user_message': '無法讀取敏感檔案：Secrets.JSON。此檔案包含敏感資訊，為保護您的資料安全，已阻止讀取。'}",
     0).
Proof. vm_compute. reflexivity. Qed.

(* ================================================================== *)
(** * Further properties of the code *)

(** ** [get_filename_from_path] *)

(** X1. On a POSIX host [get_filename_from_path] returns the last field of
    the path between slashes that is neither empty nor [.], and the empty
    string when there is none. *)
Theorem X1_posix_name_is_last_kept_field :
  forall p : pystr,
    get_filename_from_path pathlib.Posix p
    = last (filter (fun x => Str.truthy x && negb (Str.eqb x (u ".")))
                   (Str.split (ch "/") p)) [].
Proof.
  intros p. change (get_filename_from_path pathlib.Posix p
                    = final_component (ch "/") p).
  unfold get_filename_from_path, pathlib.Path.
  destruct p as [|c s]; [reflexivity|]. cbn [Str.truthy negb].
  rewrite name_parse_parts by discriminate.
  cbn [pathlib.altsep pathlib.sep pathlib.splitroot].
  unfold pathlib.posix_splitroot.
  destruct (c =? ch "/") eqn:E; [|reflexivity].
  match goal with
  | |- context [if ?b then _ else _] => destruct b
  end; cbn [snd]; apply final_component_lstrip.
Qed.

(** X2. On either host the name that [get_filename_from_path] returns
    holds no slash and no separator of the host, and is never [.]. *)
Theorem X2_name_holds_no_separator :
  forall (fl : pathlib.flavour) (p : pystr),
    ~ In (ch "/") (get_filename_from_path fl p) /\
    ~ In (pathlib.sep fl) (get_filename_from_path fl p) /\
    get_filename_from_path fl p <> u ".".
Proof.
  intros fl p. split; [apply get_filename_slash_free|].
  assert (forall sp s, ~ In sp (final_component sp s)
                       /\ final_component sp s <> u ".") as Hfc.
  { intros sp s. destruct (final_component_cases sp s) as [E|[Hin Hc]].
    - rewrite E. split; [intros [] | discriminate].
    - split; [exact (proj2 (split_fields _ _ _ Hin))|].
      intros E. rewrite E in Hc. discriminate Hc. }
  destruct fl.
  - rewrite get_filename_posix. apply Hfc.
  - unfold get_filename_from_path, pathlib.Path.
    destruct p as [|c0 p0]; [split; [intros [] | discriminate]|].
    cbn [Str.truthy negb]. rewrite name_parse_parts by discriminate.
    apply Hfc.
Qed.

(** X3. On a POSIX host taking the name twice is taking it once, so a
    name classifies as the path it came from. *)
Theorem X3_posix_name_idempotent :
  forall (U : UnicodeData) (p : pystr),
    get_filename_from_path pathlib.Posix
      (get_filename_from_path pathlib.Posix p)
    = get_filename_from_path pathlib.Posix p /\
    classify pathlib.Posix U (get_filename_from_path pathlib.Posix p)
    = classify pathlib.Posix U p.
Proof.
  intros U p.
  assert (get_filename_from_path pathlib.Posix
            (get_filename_from_path pathlib.Posix p)
          = get_filename_from_path pathlib.Posix p) as H.
  { rewrite !get_filename_posix.
    destruct (final_component_cases (ch "/") p) as [E|[Hin Hc]].
    - rewrite E. reflexivity.
    - apply is_component_no_sep_split; [exact Hc|].
      apply contains_false. exact (proj2 (split_fields _ _ _ Hin)). }
  split; [exact H|]. unfold classify. rewrite H. reflexivity.
Qed.

(** X4. On a POSIX host a [.] component, a doubled slash and a [/.] at the
    end do not change the name. *)
Theorem X4_posix_dot_and_empty_components :
  forall d r : pystr,
    get_filename_from_path pathlib.Posix (d ++ u "/./" ++ r)
    = get_filename_from_path pathlib.Posix (d ++ u "/" ++ r) /\
    get_filename_from_path pathlib.Posix (d ++ u "//" ++ r)
    = get_filename_from_path pathlib.Posix (d ++ u "/" ++ r) /\
    get_filename_from_path pathlib.Posix (d ++ u "/.")
    = get_filename_from_path pathlib.Posix d.
Proof.
  intros d r. rewrite !get_filename_posix. unfold final_component.
  change (u "/./" ++ r) with (ch "/" :: (u "." ++ ch "/" :: r)).
  change (u "//" ++ r) with (ch "/" :: ([] ++ ch "/" :: r)).
  change (u "/" ++ r) with (ch "/" :: r).
  change (u "/.") with (ch "/" :: u ".").
  rewrite !split_app_sep, !filter_app.
  split; [|split]; try reflexivity.
  cbn [Str.split filter app]. change (u ".") with [46]. cbn.
  rewrite app_nil_r. reflexivity.
Qed.

Lemma replace_replace (a b : Z) (s : pystr) :
  Str.replace a b (Str.replace b a s) = Str.replace a b s.
Proof.
  unfold Str.replace. rewrite map_map. apply map_ext. intros c.
  destruct (Z.eqb_spec c b) as [->|Hb].
  - rewrite Z.eqb_refl. destruct (b =? a); reflexivity.
  - destruct (c =? a); reflexivity.
Qed.

Lemma replace_idempotent (a b : Z) (s : pystr) :
  Str.replace a b (Str.replace a b s) = Str.replace a b s.
Proof.
  unfold Str.replace. rewrite map_map. apply map_ext. intros c.
  destruct (Z.eqb_spec c a) as [->|Ha].
  - destruct (b =? a); reflexivity.
  - apply Z.eqb_neq in Ha. rewrite Ha. reflexivity.
Qed.

(** On a Windows host the name is that of the path written with
    backslashes only. *)
Lemma get_filename_windows_normalised (p q : pystr) :
  Str.replace (ch "/") (ch "\") p = Str.replace (ch "/") (ch "\") q ->
  get_filename_from_path pathlib.Windows p
  = get_filename_from_path pathlib.Windows q.
Proof.
  intros H. unfold get_filename_from_path, pathlib.Path, pathlib.parse_parts.
  cbn [pathlib.altsep pathlib.sep]. rewrite H.
  destruct p as [|a p], q as [|b q]; try reflexivity; discriminate H.
Qed.

(** X5. On a Windows host the name does not depend on which of the two
    separators the path is written with. *)
Theorem X5_windows_separator_style :
  forall (U : UnicodeData) (p : pystr),
    get_filename_from_path pathlib.Windows (Str.replace (ch "\") (ch "/") p)
    = get_filename_from_path pathlib.Windows p /\
    get_filename_from_path pathlib.Windows (Str.replace (ch "/") (ch "\") p)
    = get_filename_from_path pathlib.Windows p /\
    classify pathlib.Windows U (Str.replace (ch "\") (ch "/") p)
    = classify pathlib.Windows U p.
Proof.
  intros U p.
  assert (get_filename_from_path pathlib.Windows
            (Str.replace (ch "\") (ch "/") p)
          = get_filename_from_path pathlib.Windows p) as H
    by (apply get_filename_windows_normalised, replace_replace).
  split; [exact H|]. split.
  - apply get_filename_windows_normalised, replace_idempotent.
  - unfold classify. rewrite H. reflexivity.
Qed.

(** X6. On a Windows host a drive letter and a colon before a plain name
    are no part of the name: [X:name] has the name [name], and is classified
    as sensitive when [name] is a casing of an entry without a slash. *)
Theorem X6_windows_drive_relative :
  forall (U : UnicodeData) (letter : Z) (v : pystr),
    Str.contains letter pathlib.drive_letters = true ->
    plain_name v = true ->
    get_filename_from_path pathlib.Windows (letter :: ch ":" :: v) = v /\
    (forall f, In f SENSITIVE_FILES -> Str.contains (ch "/") f = false ->
               casing_variant f v ->
               classify pathlib.Windows U (letter :: ch ":" :: v) = true).
Proof.
  intros U letter v Hl Hv.
  assert (Hv' := Hv). unfold plain_name in Hv'.
  repeat rewrite andb_true_iff in Hv'. destruct Hv' as [[[Hc H1] H2] H3].
  apply negb_true_iff in H1, H2, H3.
  assert (get_filename_from_path pathlib.Windows (letter :: ch ":" :: v) = v)
    as Hname.
  { unfold get_filename_from_path, pathlib.Path. cbn [Str.truthy negb].
    rewrite name_parse_parts by discriminate.
    cbn [pathlib.altsep pathlib.sep pathlib.splitroot]. cbv zeta.
    assert (Str.replace (ch "/") (ch "\") (letter :: ch ":" :: v)
            = letter :: ch ":" :: v) as ->.
    { apply replace_absent. intros [E|[E|E]].
      - subst letter. discriminate Hl.
      - discriminate E.
      - apply contains_false in H1. contradiction. }
    rewrite windows_splitroot_local by reflexivity.
    change (Str.slice 1 2 (letter :: ch ":" :: v)) with (u ":").
    change (Str.slice 0 1 (letter :: ch ":" :: v)) with [letter].
    cbn [pathlib.in_drive_letters]. rewrite Hl.
    change (Str.eqb (u ":") (u ":") && true) with true. cbv iota.
    change (Str.from 2 (letter :: ch ":" :: v)) with v.
    assert (Str.eqb (Str.slice 2 3 (letter :: ch ":" :: v)) (u "\") = false)
      as ->.
    { destruct v as [|a v]; [reflexivity|].
      apply contains_cons_false in H2. destruct H2 as [Ha _].
      change (Str.slice 2 3 (letter :: ch ":" :: a :: v)) with [a].
      change (u "\") with [92]. cbn [Str.eqb].
      apply Z.eqb_neq in Ha. change (ch "\") with 92 in Ha. rewrite Ha.
      reflexivity. }
    cbn [snd]. apply is_component_no_sep_split; assumption. }
  split; [exact Hname|].
  intros f Hin Hs Hvar. unfold classify. rewrite Hname.
  exact (proj2 (classify_casing pathlib.Windows U f v Hin Hs Hvar)).
Qed.

Lemma X6_witness :
  Str.contains (ch "C") pathlib.drive_letters = true /\
  plain_name (u "Secrets.json") = true /\
  get_filename_from_path pathlib.Windows (ch "C" :: ch ":" :: u "Secrets.json")
  = u "Secrets.json" /\
  classify pathlib.Windows Sample.ucd (ch "C" :: ch ":" :: u "Secrets.json")
  = true.
Proof.
  assert (Str.contains (ch "C") pathlib.drive_letters = true) as Hl
    by reflexivity.
  assert (plain_name (u "Secrets.json") = true) as Hv by reflexivity.
  destruct (X6_windows_drive_relative Sample.ucd (ch "C") (u "Secrets.json")
              Hl Hv) as [H1 H2].
  split; [exact Hl|]. split; [exact Hv|]. split; [exact H1|].
  apply (H2 (u "secrets.json")).
  - right; right; right; right; right; left. reflexivity.
  - reflexivity.
  - repeat constructor.
Defined.

(** ** [is_sensitive_file] *)

Lemma variant_slash (a b : Z) :
  Unicode.ascii_lower a = Unicode.ascii_lower b ->
  (a =? ch "/") = (b =? ch "/").
Proof.
  intros H. change (ch "/") with 47.
  destruct (Z.eqb_spec a 47), (Z.eqb_spec b 47); try reflexivity; exfalso;
    zbool; lia.
Qed.

Lemma split_variant (p p' : pystr) :
  casing_variant p p' ->
  Forall2 casing_variant (Str.split (ch "/") p) (Str.split (ch "/") p').
Proof.
  induction 1 as [|a b p p' Hab Hpp IH]; [repeat constructor|].
  cbn [Str.split]. rewrite <- (variant_slash _ _ Hab).
  destruct (a =? ch "/").
  - constructor; [constructor | exact IH].
  - destruct IH as [|w w' ws ws' Hw Hws]; repeat constructor; assumption.
Qed.

Lemma filter_variant (l l' : list pystr) :
  Forall2 casing_variant l l' ->
  Forall2 casing_variant (filter is_component l) (filter is_component l').
Proof.
  induction 1 as [|x y l l' Hxy Hl IH]; [constructor|].
  cbn [filter]. rewrite (variant_is_component _ _ Hxy).
  destruct (is_component x); [constructor|]; assumption.
Qed.

Lemma last_variant (l l' : list pystr) :
  Forall2 casing_variant l l' -> casing_variant (last l []) (last l' []).
Proof.
  induction 1 as [|x y l l' Hxy Hl IH]; [constructor|].
  destruct Hl as [|x2 y2 l l' H2 Hl]; [exact Hxy | exact IH].
Qed.

Lemma final_component_chars (sp : Z) (s : pystr) (c : Z) :
  In c (final_component sp s) -> In c s.
Proof.
  destruct (final_component_cases sp s) as [E|[Hin _]].
  - rewrite E. intros [].
  - apply (proj1 (split_fields _ _ _ Hin)).
Qed.

(** X7. [is_sensitive_file] does not see the case of ASCII letters: two
    names that differ only in it, and that hold no capital sigma (the one
    letter whose lowercase form depends on its neighbours), get the same
    answer. On a POSIX host the same holds of [classify] for whole
    paths. *)
Theorem X7_ascii_case_is_ignored :
  forall (U : UnicodeData) (f v : pystr),
    casing_variant f v ->
    Str.contains 0x3A3 f = false ->
    is_sensitive_file U v = is_sensitive_file U f /\
    classify pathlib.Posix U v = classify pathlib.Posix U f.
Proof.
  intros U f v Hv Hs.
  assert (forall a b, casing_variant a b -> Str.contains 0x3A3 a = false ->
                      is_sensitive_file U b = is_sensitive_file U a) as Hname.
  { intros a b Hab Ha. unfold is_sensitive_file, is_sensitive_in.
    rewrite (lower_variant U a b Hab Ha).
    destruct Hab; reflexivity. }
  split; [exact (Hname f v Hv Hs)|].
  unfold classify. rewrite !get_filename_posix. apply Hname.
  - unfold final_component. apply last_variant, filter_variant, split_variant.
    exact Hv.
  - apply contains_false. intros Hin. apply contains_false in Hs. apply Hs.
    eapply final_component_chars. exact Hin.
Qed.

Lemma X7_witness :
  casing_variant (u "/Home/User/ID_RSA.pub") (u "/home/user/id_rsa.PUB") /\
  Str.contains 0x3A3 (u "/Home/User/ID_RSA.pub") = false /\
  is_sensitive_file Sample.ucd (u "/home/user/id_rsa.PUB")
  = is_sensitive_file Sample.ucd (u "/Home/User/ID_RSA.pub") /\
  classify pathlib.Posix Sample.ucd (u "/home/user/id_rsa.PUB")
  = classify pathlib.Posix Sample.ucd (u "/Home/User/ID_RSA.pub").
Proof.
  assert (casing_variant (u "/Home/User/ID_RSA.pub") (u "/home/user/id_rsa.PUB"))
    as Hv by (repeat constructor).
  assert (Str.contains 0x3A3 (u "/Home/User/ID_RSA.pub") = false) as Hs
    by reflexivity.
  split; [exact Hv|]. split; [exact Hs|].
  exact (X7_ascii_case_is_ignored Sample.ucd _ _ Hv Hs).
Defined.

(** X8. Every entry of the list is already in lowercase, so lowering the
    entries changes nothing: [is_sensitive_file] answers [True] exactly for
    the names whose lowercase form is an entry of the list as written. *)
Theorem X8_sensitive_iff_lowercase_in_list :
  forall (U : UnicodeData) (name : pystr),
    is_sensitive_file U name = true <->
    In (Unicode.lower U name) SENSITIVE_FILES.
Proof.
  intros U name. rewrite is_sensitive_file_iff. unfold sensitive_name. split.
  - intros [e [He Hl]]. rewrite Hl, (lower_entry U e He). exact He.
  - intros Hin. exists (Unicode.lower U name). split; [exact Hin|].
    symmetry. apply lower_entry. exact Hin.
Qed.

(** ** [main], for every runtime *)

Lemma write_result_frame (R : Runtime) (result : list (pystr * pystr))
      (w : World) :
  write_result R result w =
  match serialise result with
  | Some out => (inr tt, {| stdin := stdin w; stdout := stdout w ++ out |})
  | None => (inl {| exc_class := UnicodeEncodeError;
                    exc_str := encode_error_text R (Json.dumps result) |}, w)
  end.
Proof.
  unfold write_result, serialise, str_encode, bind.
  destruct (Utf8.encode (Json.dumps result)); reflexivity.
Qed.

(** What a run writes when the dictionary of [decide] cannot be encoded:
    the [UnicodeEncodeError] reaches the outer handler, which writes its own
    dictionary, or fails in its turn and leaves [main] with nothing
    written. *)
Lemma run_cases (R : Runtime) (input : pybytes) :
  match serialise (decide R input) with
  | Some out => run R input = (out, 0)
  | None =>
      (exists message out,
          serialise (allow_with_message message) = Some out /\
          run R input = (out, 0)) \/
      run R input = ([], 1)
  end.
Proof.
  destruct (serialise (decide R input)) as [out|] eqn:E;
    [apply run_decide; exact E|].
  revert E.
  unfold decide, run, main, main_body, try_except, bind, stdin_buffer_read,
    bytes_decode, data_get, call_get_filename_from_path.
  cbn [stdin stdout].
  assert (forall result w,
             serialise result = None ->
             write_result R result w
             = (inl {| exc_class := UnicodeEncodeError;
                       exc_str := encode_error_text R (Json.dumps result) |}, w))
    as Hfail by (intros result w H; rewrite write_result_frame, H; reflexivity).
  assert (forall text : pystr,
             (exists message out,
                 serialise (allow_with_message message) = Some out /\
                 (let (s, w') :=
                    write_result R
                      [(u "permission", u "allow");
                       (u "user_message", u "檢查過程中發生錯誤: " ++ text)]
                      {| stdin := []; stdout := [] |} in
                  match s with
                  | inl _ => (stdout w', 1)
                  | inr _ => (stdout w', 0)
                  end) = (out, 0)) \/
             (let (s, w') :=
                write_result R
                  [(u "permission", u "allow");
                   (u "user_message", u "檢查過程中發生錯誤: " ++ text)]
                  {| stdin := []; stdout := [] |} in
              match s with
              | inl _ => (stdout w', 1)
              | inr _ => (stdout w', 0)
              end) = ([], 1)) as Hhandler.
  { intros text. rewrite write_result_frame.
    match goal with
    | |- context [serialise ?r] => destruct (serialise r) as [out|] eqn:Es
    end.
    - left. exists (u "檢查過程中發生錯誤: " ++ text), out.
      split; [exact Es | reflexivity].
    - right. reflexivity. }
  destruct (Utf8.decode input) as [text|]; cbn [raise ret].
  2:{ intros E. cbn [is_Exception exc_class exc_str].
      rewrite (Hfail _ _ E). right. reflexivity. }
  destruct (json_loads R text) as [e|data].
  - destruct (is_JSONDecodeError e) eqn:Ej; intros E.
    + rewrite (Hfail _ _ E). cbn [is_Exception exc_class exc_str].
      apply Hhandler.
    + assert (is_Exception e = true) as ->
        by (destruct e as [[] ?]; reflexivity).
      rewrite (Hfail _ _ E). right. reflexivity.
  - destruct data as [| | | | |items|items];
      try (intros E; cbn [raise is_Exception exc_class exc_str];
           rewrite (Hfail _ _ E); right; reflexivity).
    cbn [ret].
    set (file_path := match Json.lookup (u "file_path") items with
                      | Some v => v
                      | None => JStr []
                      end).
    destruct (Json.truthy file_path) eqn:Et; cbn [negb].
    2:{ intros E. discriminate E. }
    destruct file_path as [| | | |s| |];
      try (intros E; cbn [raise is_Exception exc_class exc_str];
           rewrite (Hfail _ _ E); right; reflexivity).
    cbn [ret]. intros E.
    destruct (is_sensitive_file (unicodedata R)
                (get_filename_from_path (host R) s));
      rewrite (Hfail _ _ E); cbn [is_Exception exc_class exc_str];
      apply Hhandler.
Qed.

(** X9. Whatever the runtime, a run writes one whole JSON object and ends
    with status 0, or writes nothing at all and ends with status 1: never a
    part of an object, never two. *)
Theorem X9_one_document_or_nothing :
  forall (R : Runtime) (input : pybytes),
    (exists result out,
        serialise result = Some out /\ run R input = (out, 0)) \/
    run R input = ([], 1).
Proof.
  intros R input. pose proof (run_cases R input) as H.
  destruct (serialise (decide R input)) as [out|] eqn:E.
  - left. exists (decide R input), out. auto.
  - destruct H as [[message [out [Hs Hr]]]|Hr].
    + left. exists (allow_with_message message), out. auto.
    + right. exact Hr.
Qed.

Lemma encode_ascii_app (a b : pystr) :
  forallb Unicode.is_ascii a = true ->
  Utf8.encode (a ++ b)
  = match Utf8.encode b with Some r => Some (a ++ r) | None => None end.
Proof.
  induction a as [|c a IH]; cbn [forallb app]; intros H.
  - destruct (Utf8.encode b); reflexivity.
  - apply andb_true_iff in H. destruct H as [Hc Ha].
    cbn [Utf8.encode]. rewrite (IH Ha). unfold Utf8.encode_char.
    unfold Unicode.is_ascii in Hc. rewrite Hc.
    destruct (Utf8.encode b); reflexivity.
Qed.

(** How the documents begin. *)
Lemma serialise_heads (message : pystr) (out : pybytes) :
  (serialise allow_result = Some out -> firstn 22 out = allow_head) /\
  (serialise (allow_with_message message) = Some out ->
   firstn 22 out = allow_head) /\
  (serialise (deny_with_message message) = Some out ->
   firstn 21 out = deny_head).
Proof.
  split; [|split].
  - intros H. rewrite allow_result_serialises in H. injection H as <-.
    reflexivity.
  - unfold serialise.
    change (Json.dumps (allow_with_message message))
      with (allow_head ++ u ", " ++ Json.encode_basestring (u "user_message")
            ++ u ": " ++ Json.encode_basestring message ++ u "}").
    rewrite encode_ascii_app by reflexivity.
    destruct (Utf8.encode _); [|discriminate]. intros [= <-]. reflexivity.
  - unfold serialise.
    change (Json.dumps (deny_with_message message))
      with (deny_head ++ u ", " ++ Json.encode_basestring (u "user_message")
            ++ u ": " ++ Json.encode_basestring message ++ u "}").
    rewrite encode_ascii_app by reflexivity.
    destruct (Utf8.encode _); [|discriminate]. intros [= <-]. reflexivity.
Qed.

(** The dictionaries of [decide]: a [deny] comes only from a request for a
    sensitive name. *)
Lemma decide_cases (R : Runtime) (input : pybytes) :
  decide R input = allow_result \/
  (exists message, decide R input = allow_with_message message) \/
  (exists text items p,
      Utf8.decode input = Some text /\
      json_loads R text = inr (JDict items) /\
      Json.lookup (u "file_path") items = Some (JStr p) /\
      is_sensitive_file (unicodedata R)
                        (get_filename_from_path (host R) p) = true /\
      decide R input
      = deny_with_message
          (denial_message (get_filename_from_path (host R) p))).
Proof.
  unfold decide.
  destruct (Utf8.decode input) as [text|]; [|right; left; eexists; reflexivity].
  destruct (json_loads R text) as [e|data] eqn:El.
  - right; left. destruct (is_JSONDecodeError e); eexists; reflexivity.
  - destruct data as [| | | | | |items];
      try (right; left; eexists; reflexivity).
    destruct (Json.lookup (u "file_path") items) as [v|] eqn:Ef;
      [|left; reflexivity].
    destruct (Json.truthy v); cbn [negb]; [|left; reflexivity].
    destruct v as [| | | |p| |]; try (right; left; eexists; reflexivity).
    cbv zeta.
    destruct (is_sensitive_file (unicodedata R)
                (get_filename_from_path (host R) p)) eqn:Es;
      [|left; reflexivity].
    right; right. exists text, items, p. auto.
Qed.

(** X10. Whatever the runtime, a run whose output begins with
    [{"permission": "deny"] was given decodable bytes, a JSON object and a
    string [file_path] whose file name the list matches: nothing else is
    ever denied. *)
Theorem X10_deny_only_for_sensitive_names :
  forall (R : Runtime) (input : pybytes),
    firstn 21 (fst (run R input)) = deny_head ->
    exists text items p,
      Utf8.decode input = Some text /\
      json_loads R text = inr (JDict items) /\
      Json.lookup (u "file_path") items = Some (JStr p) /\
      is_sensitive_file (unicodedata R)
                        (get_filename_from_path (host R) p) = true.
Proof.
  intros R input Hd.
  assert (forall out, firstn 22 out = allow_head -> firstn 21 out <> deny_head)
    as Hallow.
  { intros out H E.
    assert (firstn 21 (firstn 22 out) = firstn 21 out) as F
      by (rewrite firstn_firstn; reflexivity).
    rewrite H, E in F. discriminate F. }
  pose proof (run_cases R input) as Hrun.
  destruct (serialise (decide R input)) as [out|] eqn:E.
  - rewrite Hrun in Hd. cbn [fst] in Hd.
    destruct (decide_cases R input)
      as [D|[[m D]|[text [items [p [H1 [H2 [H3 [H4 D]]]]]]]]].
    + exfalso. rewrite D in E.
      exact (Hallow out (proj1 (serialise_heads [] out) E) Hd).
    + exfalso. rewrite D in E.
      exact (Hallow out (proj1 (proj2 (serialise_heads m out)) E) Hd).
    + exists text, items, p. auto.
  - destruct Hrun as [[m [out [Hs Hr]]]|Hr]; rewrite Hr in Hd; cbn [fst] in Hd.
    + exfalso.
      exact (Hallow out (proj1 (proj2 (serialise_heads m out)) Hs) Hd).
    + discriminate Hd.
Qed.

Lemma X10_witness :
  let R := Sample.runtime pathlib.Posix in
  let input := Sample.jb "{'file_path': '/srv/app/Config.JSON'}" in
  firstn 21 (fst (run R input)) = deny_head /\
  exists text items p,
    Utf8.decode input = Some text /\
    json_loads R text = inr (JDict items) /\
    Json.lookup (u "file_path") items = Some (JStr p) /\
    is_sensitive_file (unicodedata R)
                      (get_filename_from_path (host R) p) = true.
Proof.
  intros R input.
  assert (firstn 21 (fst (run R input)) = deny_head) as H
    by (vm_compute; reflexivity).
  split; [exact H|]. exact (X10_deny_only_for_sensitive_names R input H).
Defined.

(** X11. Only the field [file_path] of the request is looked at: two
    decodable JSON objects that give it the same value, or both lack it,
    get the same output and exit status. *)
Theorem X11_other_fields_are_ignored :
  forall (R : Runtime) (input input' : pybytes) (text text' : pystr)
         (items items' : list (pystr * json)),
    Utf8.decode input = Some text ->
    json_loads R text = inr (JDict items) ->
    Utf8.decode input' = Some text' ->
    json_loads R text' = inr (JDict items') ->
    Json.lookup (u "file_path") items = Json.lookup (u "file_path") items' ->
    run R input = run R input'.
Proof.
  intros R input input' text text' items items' Hd Hl Hd' Hl' Hf.
  unfold run, main, main_body, try_except, bind, stdin_buffer_read,
    bytes_decode.
  cbn [stdin stdout]. rewrite Hd, Hd'. cbn [ret]. rewrite Hl, Hl'.
  unfold data_get. rewrite Hf. reflexivity.
Qed.

Lemma X11_witness :
  let R := Sample.runtime pathlib.Posix in
  let input := Sample.jb "{'file_path': 'a/token.txt'}" in
  let input' :=
    Sample.jb "{'tool': 'read', 'file_path': 'a/token.txt', 'n': [1, 2]}" in
  let text := Sample.jt "{'file_path': 'a/token.txt'}" in
  let text' :=
    Sample.jt "{'tool': 'read', 'file_path': 'a/token.txt', 'n': [1, 2]}" in
  let items := [(u "file_path", JStr (u "a/token.txt"))] in
  let items' := [(u "tool", JStr (u "read"));
                 (u "file_path", JStr (u "a/token.txt"));
                 (u "n", JList [JInt 1; JInt 2])] in
  Utf8.decode input = Some text /\
  json_loads R text = inr (JDict items) /\
  Utf8.decode input' = Some text' /\
  json_loads R text' = inr (JDict items') /\
  Json.lookup (u "file_path") items = Json.lookup (u "file_path") items' /\
  run R input = run R input'.
Proof.
  intros R input input' text text' items items'.
  assert (Utf8.decode input = Some text) as Hd by (vm_compute; reflexivity).
  assert (json_loads R text = inr (JDict items)) as Hl
    by (vm_compute; reflexivity).
  assert (Utf8.decode input' = Some text') as Hd' by (vm_compute; reflexivity).
  assert (json_loads R text' = inr (JDict items')) as Hl'
    by (vm_compute; reflexivity).
  assert (Json.lookup (u "file_path") items
          = Json.lookup (u "file_path") items') as Hf by reflexivity.
  split; [exact Hd|]. split; [exact Hl|]. split; [exact Hd'|].
  split; [exact Hl'|]. split; [exact Hf|].
  exact (X11_other_fields_are_ignored R input input' text text' items items'
           Hd Hl Hd' Hl' Hf).
Defined.

(** X12. The message of an error names the stage that failed and carries
    the text of the exception, when that text can be encoded: input that is
    not UTF-8 and a decoder that raises anything but [JSONDecodeError] are
    reported by the outer handler, a [JSONDecodeError] by the inner one. *)
Theorem X12_error_messages :
  forall (R : Runtime) (input : pybytes),
    (Utf8.decode input = None ->
     well_formed (decode_error_text R input) = true ->
     exists out,
       serialise (allow_with_message
                    (u "檢查過程中發生錯誤: " ++ decode_error_text R input))
       = Some out /\
       run R input = (out, 0)) /\
    (forall text e,
        Utf8.decode input = Some text ->
        json_loads R text = inl e ->
        well_formed (exc_str e) = true ->
        exists out,
          serialise (allow_with_message
                       ((if is_JSONDecodeError e then u "JSON 解析錯誤: "
                         else u "檢查過程中發生錯誤: ") ++ exc_str e))
          = Some out /\
          run R input = (out, 0)).
Proof.
  intros R input. split.
  - intros Hd Hw.
    destruct (allow_with_message_serialises
                (u "檢查過程中發生錯誤: " ++ decode_error_text R input))
      as [out Hout]; [rewrite well_formed_app, Hw; reflexivity|].
    exists out. split; [exact Hout|]. apply run_decide.
    unfold decide. rewrite Hd. exact Hout.
  - intros text e Hd Hl Hw.
    assert (decide R input
            = allow_with_message
                ((if is_JSONDecodeError e then u "JSON 解析錯誤: "
                  else u "檢查過程中發生錯誤: ") ++ exc_str e)) as D.
    { unfold decide. rewrite Hd, Hl. destruct (is_JSONDecodeError e);
        reflexivity. }
    destruct (allow_with_message_serialises
                ((if is_JSONDecodeError e then u "JSON 解析錯誤: "
                  else u "檢查過程中發生錯誤: ") ++ exc_str e))
      as [out Hout].
    { rewrite well_formed_app, Hw. destruct (is_JSONDecodeError e);
        reflexivity. }
    exists out. split; [exact Hout|]. apply run_decide. rewrite D. exact Hout.
Qed.

Lemma X12_witness :
  let R := Sample.runtime pathlib.Posix in
  let e := {| exc_class := JSONDecodeError; exc_str := u "Extra data" |} in
  (Utf8.decode [0xC3] = None /\
   well_formed (decode_error_text R [0xC3]) = true /\
   exists out,
     serialise (allow_with_message
                  (u "檢查過程中發生錯誤: " ++ decode_error_text R [0xC3]))
     = Some out /\
     run R [0xC3] = (out, 0)) /\
  (Utf8.decode (Sample.b "{} {}") = Some (u "{} {}") /\
   json_loads R (u "{} {}") = inl e /\
   well_formed (exc_str e) = true /\
   exists out,
     serialise (allow_with_message
                  ((if is_JSONDecodeError e then u "JSON 解析錯誤: "
                    else u "檢查過程中發生錯誤: ") ++ exc_str e))
     = Some out /\
     run R (Sample.b "{} {}") = (out, 0)).
Proof.
  intros R e.
  assert (Utf8.decode [0xC3] = None) as H1 by reflexivity.
  assert (well_formed (decode_error_text R [0xC3]) = true) as H2
    by reflexivity.
  assert (Utf8.decode (Sample.b "{} {}") = Some (u "{} {}")) as H3
    by (vm_compute; reflexivity).
  assert (json_loads R (u "{} {}") = inl e) as H4 by (vm_compute; reflexivity).
  assert (well_formed (exc_str e) = true) as H5 by reflexivity.
  split.
  - split; [exact H1|]. split; [exact H2|].
    exact (proj1 (X12_error_messages R [0xC3]) H1 H2).
  - split; [exact H3|]. split; [exact H4|]. split; [exact H5|].
    exact (proj2 (X12_error_messages R (Sample.b "{} {}")) (u "{} {}") e
                 H3 H4 H5).
Defined.

(** X13. A JSON document that is no object (a list, a string, a number,
    [true], [false], [null]) has no [get]: the run answers [allow] with the
    text of the [AttributeError], which names the type of the value. *)
Theorem X13_document_is_no_object :
  forall (R : Runtime) (input : pybytes) (text : pystr) (data : json),
    Utf8.decode input = Some text ->
    json_loads R text = inr data ->
    (forall items, data <> JDict items) ->
    exists out,
      serialise (allow_with_message
                   (u "檢查過程中發生錯誤: '" ++ Json.type_name data
                    ++ u "' object has no attribute 'get'"))
      = Some out /\
      run R input = (out, 0).
Proof.
  intros R input text data Hd Hl Hn.
  assert (decide R input
          = allow_with_message (u "檢查過程中發生錯誤: " ++ no_get_text data)) as D.
  { unfold decide. rewrite Hd, Hl. destruct data; try reflexivity.
    exfalso. eapply Hn. reflexivity. }
  destruct (allow_with_message_serialises
              (u "檢查過程中發生錯誤: " ++ no_get_text data)) as [out Hout].
  { unfold no_get_text. destruct data; reflexivity. }
  exists out. split.
  - exact Hout.
  - apply run_decide. rewrite D. exact Hout.
Qed.

Lemma X13_witness :
  let R := Sample.runtime pathlib.Posix in
  let input := Sample.jb "['.env']" in
  let data := JList [JStr (u ".env")] in
  Utf8.decode input = Some (Sample.jt "['.env']") /\
  json_loads R (Sample.jt "['.env']") = inr data /\
  (forall items, data <> JDict items) /\
  exists out,
    serialise (allow_with_message
                 (u "檢查過程中發生錯誤: '" ++ Json.type_name data
                  ++ u "' object has no attribute 'get'"))
    = Some out /\
    run R input = (out, 0).
Proof.
  intros R input data.
  assert (Utf8.decode input = Some (Sample.jt "['.env']")) as Hd
    by (vm_compute; reflexivity).
  assert (json_loads R (Sample.jt "['.env']") = inr data) as Hl
    by (vm_compute; reflexivity).
  assert (forall items, data <> JDict items) as Hn
    by (intros items; discriminate).
  split; [exact Hd|]. split; [exact Hl|]. split; [exact Hn|].
  exact (X13_document_is_no_object R input (Sample.jt "['.env']") data
           Hd Hl Hn).
Defined.


(* ------------------------------------------------------------------ *)
(** ** The document is one line *)

Lemma escape_char_printable (c : Z) :
  forallb printable (Json.escape_char c) = true.
Proof.
  unfold Json.escape_char.
  repeat match goal with
         | |- context [if ?x =? ?y then _ else _] => destruct (x =? y);
                                                     [reflexivity|]
         end.
  destruct (Utf8.between 0 c 31) eqn:E.
  - unfold Utf8.between in E. apply andb_true_iff in E.
    rewrite !Z.leb_le in E.
    assert (exists n, (n < 32)%nat /\ c = Z.of_nat n) as [n [Hn ->]]
      by (exists (Z.to_nat c); lia).
    do 32 (destruct n as [|n]; [reflexivity|]). lia.
  - cbn [forallb]. unfold printable. change 0x1F with 31. rewrite E.
    reflexivity.
Qed.

Lemma encode_basestring_printable (s : pystr) :
  forallb printable (Json.encode_basestring s) = true.
Proof.
  unfold Json.encode_basestring. rewrite !forallb_app. cbn [forallb andb].
  change (printable 34) with true. cbn [andb]. rewrite andb_true_r.
  induction s as [|c s IH]; [reflexivity|].
  cbn [flat_map]. rewrite forallb_app, IH, escape_char_printable. reflexivity.
Qed.

Lemma dumps_printable (result : list (pystr * pystr)) :
  forallb printable (Json.dumps result) = true.
Proof.
  unfold Json.dumps. rewrite !forallb_app.
  change (forallb printable (u "{")) with true.
  change (forallb printable (u "}")) with true.
  cbn [andb]. rewrite andb_true_r.
  induction result as [|[k v] rest IH]; [reflexivity|].
  cbn [Json.dumps_items]. destruct rest as [|kv rest].
  - rewrite !forallb_app, !encode_basestring_printable. reflexivity.
  - rewrite !forallb_app, !encode_basestring_printable, IH. reflexivity.
Qed.

(** A byte with the top bit set is no control character. *)
Lemma lor_top_bit (k y : Z) :
  0 <= k -> Z.testbit k 7 = true -> 0 <= y -> 128 <= Z.lor k y.
Proof.
  intros Hk Hbit Hy.
  assert (0 <= Z.lor k y) as Hnn by (apply Z.lor_nonneg; auto).
  assert (Z.testbit (Z.lor k y) 7 = true) as Hb
    by (rewrite Z.lor_spec, Hbit; reflexivity).
  destruct (Z.lt_ge_cases (Z.lor k y) 128) as [Hlt|]; [|assumption].
  exfalso. destruct (Z.eq_dec (Z.lor k y) 0) as [E|E].
  - rewrite E in Hb. discriminate Hb.
  - rewrite Z.bits_above_log2 in Hb; [discriminate Hb | exact Hnn |].
    apply Z.log2_lt_pow2; [lia | exact Hlt].
Qed.

Lemma encode_char_printable (c : Z) (bs : pybytes) (b : Z) :
  Utf8.encode_char c = Some bs -> printable c = true -> In b bs -> 32 <= b.
Proof.
  unfold Utf8.encode_char, printable, Utf8.is_surrogate, Utf8.between,
    Utf8.low6.
  assert (forall k y, Z.testbit k 7 = true -> 0 <= k -> 0 <= y ->
                      32 <= Z.lor k y) as Hlor.
  { intros k y Hb Hk Hy. pose proof (lor_top_bit k y Hk Hb Hy). lia. }
  assert (forall n, 0 <= c -> 0 <= Z.shiftr c n) as Hshift
    by (intros n Hc; apply Z.shiftr_nonneg; exact Hc).
  assert (forall y, 0 <= Z.land y 0x3F) as Hland
    by (intros y; apply Z.land_nonneg; right; lia).
  pose proof (fun Hc => Hlor 0xC0 (Z.shiftr c 6) eq_refl ltac:(lia) (Hshift 6 Hc)) as B1.
  pose proof (Hlor 0x80 (Z.land c 0x3F) eq_refl ltac:(lia) (Hland _)) as B2.
  pose proof (fun Hc => Hlor 0xE0 (Z.shiftr c 12) eq_refl ltac:(lia) (Hshift 12 Hc)) as B3.
  pose proof (Hlor 0x80 (Z.land (Z.shiftr c 6) 0x3F) eq_refl ltac:(lia) (Hland _)) as B4.
  pose proof (fun Hc => Hlor 0xF0 (Z.shiftr c 18) eq_refl ltac:(lia) (Hshift 18 Hc)) as B5.
  pose proof (Hlor 0x80 (Z.land (Z.shiftr c 12) 0x3F) eq_refl ltac:(lia) (Hland _)) as B6.
  clear Hlor Hshift Hland.
  set (x1 := Z.lor 0xC0 (Z.shiftr c 6)) in *.
  set (x2 := Z.lor 0x80 (Z.land c 0x3F)) in *.
  set (x3 := Z.lor 0xE0 (Z.shiftr c 12)) in *.
  set (x4 := Z.lor 0x80 (Z.land (Z.shiftr c 6) 0x3F)) in *.
  set (x5 := Z.lor 0xF0 (Z.shiftr c 18)) in *.
  set (x6 := Z.lor 0x80 (Z.land (Z.shiftr c 12) 0x3F)) in *.
  clearbody x1 x2 x3 x4 x5 x6.
  intros H Hp Hin.
  repeat match type of H with
         | context [?x <=? ?y] => destruct (Z.leb_spec x y)
         end; cbn [andb negb] in *; try discriminate;
    injection H as <-;
    repeat match goal with
           | H : In _ (_ :: _) |- _ => destruct H as [H|H]
           | H : In _ [] |- _ => destruct H
           end; subst b; lia.
Qed.

Lemma encode_printable (s : pystr) (out : pybytes) (b : Z) :
  Utf8.encode s = Some out -> forallb printable s = true -> In b out ->
  32 <= b.
Proof.
  revert out. induction s as [|c s IH]; intros out H Hp Hin.
  - injection H as <-. destruct Hin.
  - cbn [Utf8.encode] in H. cbn [forallb] in Hp.
    apply andb_true_iff in Hp. destruct Hp as [Hc Hs].
    destruct (Utf8.encode_char c) as [bs|] eqn:Ec; [|discriminate H].
    destruct (Utf8.encode s) as [r|] eqn:Es; [|discriminate H].
    injection H as <-. apply in_app_or in Hin. destruct Hin as [Hin|Hin].
    + exact (encode_char_printable c bs b Ec Hc Hin).
    + exact (IH r eq_refl Hs Hin).
Qed.

(** X14. Whatever the runtime and the input, a run writes no byte below
    0x20: [json.dumps] escapes the control characters of a message, and the
    bytes of a character outside ASCII have their top bit set. The document
    holds no line feed and is one line. *)
Theorem X14_output_is_one_line :
  forall (R : Runtime) (input : pybytes) (b : Z),
    In b (fst (run R input)) -> 0x20 <= b /\ b <> 10 /\ b <> 13.
Proof.
  intros R input b Hin.
  assert (32 <= b); [|lia].
  pose proof (run_cases R input) as Hrun.
  destruct (serialise (decide R input)) as [out|] eqn:E.
  - rewrite Hrun in Hin. cbn [fst] in Hin.
    exact (encode_printable _ out b E (dumps_printable _) Hin).
  - destruct Hrun as [[m [out [Hs Hr]]]|Hr]; rewrite Hr in Hin;
      cbn [fst] in Hin.
    + exact (encode_printable _ out b Hs (dumps_printable _) Hin).
    + destruct Hin.
Qed.

Lemma X14_witness :
  In 0xE8 (fst (run (Sample.runtime pathlib.Posix) (Sample.b "[")) ) /\
  0x20 <= 0xE8 /\ 0xE8 <> 10 /\ 0xE8 <> 13.
Proof.
  assert (In 0xE8 (fst (run (Sample.runtime pathlib.Posix) (Sample.b "["))))
    as H.
  { assert (existsb (Z.eqb 0xE8)
              (fst (run (Sample.runtime pathlib.Posix) (Sample.b "[")))
            = true) as Hex by (vm_compute; reflexivity).
    apply existsb_exists in Hex. destruct Hex as [x [Hx Heq]].
    apply Z.eqb_eq in Heq. subst x. exact Hx. }
  split; [exact H|].
  exact (X14_output_is_one_line (Sample.runtime pathlib.Posix) (Sample.b "[")
           0xE8 H).
Defined.

(* ------------------------------------------------------------------ *)
(** ** The output is UTF-8 *)

#[local] Arguments Z.lor : simpl never.
#[local] Arguments Z.land : simpl never.
#[local] Arguments Z.shiftl : simpl never.
#[local] Arguments Z.shiftr : simpl never.

Lemma lor_disjoint (k y n : Z) :
  0 <= n -> 0 <= y < 2 ^ n -> k mod 2 ^ n = 0 -> Z.lor k y = k + y.
Proof.
  intros Hn Hy Hk. rewrite <- Z.lxor_lor, <- Z.add_nocarry_lxor; auto;
    rewrite <- (Z.mod_small y (2 ^ n)) by exact Hy;
    rewrite <- (Z.land_ones y n) by exact Hn;
    rewrite (Z.land_comm y), Z.land_assoc, (Z.land_ones k n) by exact Hn;
    rewrite Hk; apply Z.land_0_l.
Qed.

Ltac bits_to_arith :=
  unfold Utf8.low6 in *;
  change 0x3F with (Z.ones 6) in *; change 0x1F with (Z.ones 5) in *;
  change 0x0F with (Z.ones 4) in *; change 0x07 with (Z.ones 3) in *;
  rewrite ?Z.land_ones, ?Z.shiftr_div_pow2, ?Z.shiftl_mul_pow2 in * by lia;
  change (2 ^ 3) with 8 in *; change (2 ^ 4) with 16 in *;
  change (2 ^ 5) with 32 in *; change (2 ^ 6) with 64 in *;
  change (2 ^ 12) with 4096 in *; change (2 ^ 18) with 262144 in *.

Ltac euclid := Z.to_euclidean_division_equations; lia.

Ltac bool_arith :=
  unfold Utf8.is_surrogate in *; unfold Utf8.between, Utf8.cont in *;
  repeat match goal with
         | H : (_ && _) = true |- _ => apply andb_true_iff in H; destruct H
         | H : (_ && _) = false |- _ => apply andb_false_iff in H; destruct H
         | H : (_ <=? _) = true |- _ => apply Z.leb_le in H
         | H : (_ <=? _) = false |- _ => apply Z.leb_gt in H
         | H : (_ =? _) = true |- _ => apply Z.eqb_eq in H
         | H : (_ =? _) = false |- _ => apply Z.eqb_neq in H
         end;
  rewrite ?andb_true_iff, ?andb_false_iff, ?Z.leb_le, ?Z.leb_gt;
  euclid.

(** The lead byte [k + q] and a continuation byte [0x80 + r]. *)
Lemma lead_byte (k q n : Z) :
  0 <= n -> 0 <= q < 2 ^ n -> k mod 2 ^ n = 0 -> Z.lor k q = k + q.
Proof. apply lor_disjoint. Qed.

Lemma continuation_byte (x : Z) :
  Z.lor 0x80 (Utf8.low6 x) = 0x80 + x mod 64 /\
  Utf8.cont (Z.lor 0x80 (Utf8.low6 x)) = true /\
  Utf8.low6 (Z.lor 0x80 (Utf8.low6 x)) = x mod 64.
Proof.
  assert (Z.lor 0x80 (Utf8.low6 x) = 0x80 + x mod 64) as E.
  { bits_to_arith. apply (lor_disjoint 0x80 (x mod 64) 6);
      [lia | change (2 ^ 6) with 64; euclid | reflexivity]. }
  rewrite E. split; [reflexivity|]. split.
  - unfold Utf8.cont. apply andb_true_iff. rewrite !Z.leb_le. euclid.
  - bits_to_arith. euclid.
Qed.

Lemma decode_encode_char (c : Z) (bs rest : pybytes) :
  Utf8.encode_char c = Some bs ->
  Utf8.decode (bs ++ rest) = Utf8.cons_opt c (Utf8.decode rest).
Proof.
  unfold Utf8.encode_char.
  destruct (Utf8.between 0 c 0x7F) eqn:E1.
  { intros [= <-]. cbn [app Utf8.decode]. rewrite E1. reflexivity. }
  destruct (Utf8.between 0x80 c 0x7FF) eqn:E2.
  { intros [= <-]. cbn [app].
    destruct (continuation_byte c) as [B1 [C1 L1]].
    unfold Utf8.between in E2. apply andb_true_iff in E2.
    rewrite !Z.leb_le in E2.
    assert (Z.lor 0xC0 (Z.shiftr c 6) = 0xC0 + c / 64) as B0.
    { bits_to_arith. apply (lor_disjoint 0xC0 (c / 64) 6);
        [lia | change (2 ^ 6) with 64; euclid | reflexivity]. }
    set (b1 := Z.lor 0x80 (Utf8.low6 c)) in *. rewrite B0.
    cbn [Utf8.decode].
    assert (Utf8.between 0 (0xC0 + c / 64) 0x7F = false) as ->
      by (unfold Utf8.between; apply andb_false_iff; right;
          apply Z.leb_gt; euclid).
    assert (Utf8.between 0xC2 (0xC0 + c / 64) 0xDF = true) as ->
      by (unfold Utf8.between; apply andb_true_iff; rewrite !Z.leb_le; euclid).
    rewrite C1, L1. f_equal.
    assert (Z.land (0xC0 + c / 64) 0x1F = c / 64) as ->
      by (bits_to_arith; euclid).
    rewrite (lor_disjoint (Z.shiftl (c / 64) 6) (c mod 64) 6);
      bits_to_arith; euclid. }
  destruct (Utf8.is_surrogate c) eqn:E3; [discriminate|].
  destruct (Utf8.between 0x800 c 0xFFFF) eqn:E4.
  { intros [= <-]. cbn [app].
    destruct (continuation_byte c) as [_ [C2 L2]].
    destruct (continuation_byte (Z.shiftr c 6)) as [B1 [C1 L1]].
    assert (Z.lor 0xE0 (Z.shiftr c 12) = 0xE0 + c / 4096) as B0.
    { bits_to_arith. apply (lor_disjoint 0xE0 (c / 4096) 5);
        [lia | change (2 ^ 5) with 32; bool_arith | reflexivity]. }
    set (b2 := Z.lor 0x80 (Utf8.low6 c)) in *.
    set (b1 := Z.lor 0x80 (Utf8.low6 (Z.shiftr c 6))) in *.
    rewrite B0. cbn [Utf8.decode].
    assert (Utf8.between 0 (0xE0 + c / 4096) 0x7F = false) as ->
      by bool_arith.
    assert (Utf8.between 0xC2 (0xE0 + c / 4096) 0xDF = false) as ->
      by bool_arith.
    assert (Utf8.between 0xE0 (0xE0 + c / 4096) 0xEF = true) as ->
      by bool_arith.
    assert ((if 0xE0 + c / 4096 =? 0xE0 then Utf8.between 0xA0 b1 0xBF
             else if 0xE0 + c / 4096 =? 0xED then Utf8.between 0x80 b1 0x9F
             else Utf8.cont b1) = true) as ->.
    { rewrite B1. bits_to_arith.
      destruct (Z.eqb_spec (0xE0 + c / 4096) 0xE0);
        [bool_arith|].
      destruct (Z.eqb_spec (0xE0 + c / 4096) 0xED); bool_arith. }
    rewrite C2, L1, L2. cbn [andb]. f_equal.
    assert (Z.land (0xE0 + c / 4096) 0x0F = c / 4096) as ->
      by (bits_to_arith; bool_arith).
    bits_to_arith.
    rewrite (lor_disjoint ((c / 64) mod 64 * 64) (c mod 64) 6)
      by (change (2 ^ 6) with 64; euclid).
    rewrite (lor_disjoint (c / 4096 * 4096) _ 12)
      by (change (2 ^ 12) with 4096; euclid).
    bool_arith. }
  destruct (Utf8.between 0x10000 c 0x10FFFF) eqn:E5; [|discriminate].
  intros [= <-]. cbn [app].
  destruct (continuation_byte c) as [_ [C3 L3]].
  destruct (continuation_byte (Z.shiftr c 6)) as [_ [C2 L2]].
  destruct (continuation_byte (Z.shiftr c 12)) as [B1 [C1 L1]].
  assert (Z.lor 0xF0 (Z.shiftr c 18) = 0xF0 + c / 262144) as B0.
  { bits_to_arith. apply (lor_disjoint 0xF0 (c / 262144) 4);
      [lia | change (2 ^ 4) with 16; bool_arith | reflexivity]. }
  set (b3 := Z.lor 0x80 (Utf8.low6 c)) in *.
  set (b2 := Z.lor 0x80 (Utf8.low6 (Z.shiftr c 6))) in *.
  set (b1 := Z.lor 0x80 (Utf8.low6 (Z.shiftr c 12))) in *.
  rewrite B0. cbn [Utf8.decode].
  assert (Utf8.between 0 (0xF0 + c / 262144) 0x7F = false) as ->
    by bool_arith.
  assert (Utf8.between 0xC2 (0xF0 + c / 262144) 0xDF = false) as ->
    by bool_arith.
  assert (Utf8.between 0xE0 (0xF0 + c / 262144) 0xEF = false) as ->
    by bool_arith.
  assert (Utf8.between 0xF0 (0xF0 + c / 262144) 0xF4 = true) as ->
    by bool_arith.
  assert ((if 0xF0 + c / 262144 =? 0xF0 then Utf8.between 0x90 b1 0xBF
           else if 0xF0 + c / 262144 =? 0xF4 then Utf8.between 0x80 b1 0x8F
           else Utf8.cont b1) = true) as ->.
  { rewrite B1. bits_to_arith.
    destruct (Z.eqb_spec (0xF0 + c / 262144) 0xF0); [bool_arith|].
    destruct (Z.eqb_spec (0xF0 + c / 262144) 0xF4); bool_arith. }
  rewrite C2, C3, L1, L2, L3. cbn [andb]. f_equal.
  assert (Z.land (0xF0 + c / 262144) 0x07 = c / 262144) as ->
    by (bits_to_arith; bool_arith).
  bits_to_arith.
  rewrite (lor_disjoint ((c / 64) mod 64 * 64) (c mod 64) 6)
    by (change (2 ^ 6) with 64; euclid).
  rewrite (lor_disjoint ((c / 4096) mod 64 * 4096) _ 12)
    by (change (2 ^ 12) with 4096; euclid).
  rewrite (lor_disjoint (c / 262144 * 262144) _ 18)
    by (change (2 ^ 18) with 262144; euclid).
  bool_arith.
Qed.

(** Decoding undoes encoding. *)
Lemma decode_encode (s : pystr) (out : pybytes) :
  Utf8.encode s = Some out -> Utf8.decode out = Some s.
Proof.
  revert out. induction s as [|c s IH]; intros out H.
  - injection H as <-. reflexivity.
  - cbn [Utf8.encode] in H.
    destruct (Utf8.encode_char c) as [bs|] eqn:Ec; [|discriminate H].
    destruct (Utf8.encode s) as [r|] eqn:Es; [|discriminate H].
    injection H as <-. rewrite (decode_encode_char c bs r Ec), (IH r eq_refl).
    reflexivity.
Qed.

(** X15. Whatever the runtime and the input, the bytes that a run writes
    are valid UTF-8: decoded, they are the text that [json.dumps] made of
    one dictionary (or the run wrote nothing and ended with status 1). *)
Theorem X15_output_is_utf8 :
  forall (R : Runtime) (input : pybytes),
    (exists result,
        Utf8.decode (fst (run R input)) = Some (Json.dumps result) /\
        snd (run R input) = 0) \/
    run R input = ([], 1).
Proof.
  intros R input. pose proof (run_cases R input) as Hrun.
  destruct (serialise (decide R input)) as [out|] eqn:E.
  - left. exists (decide R input). rewrite Hrun. cbn [fst snd].
    split; [exact (decode_encode _ _ E) | reflexivity].
  - destruct Hrun as [[m [out [Hs Hr]]]|Hr].
    + left. exists (allow_with_message m). rewrite Hr. cbn [fst snd].
      split; [exact (decode_encode _ _ Hs) | reflexivity].
    + right. exact Hr.
Qed.

(* ------------------------------------------------------------------ *)
(** ** UNC paths on a Windows host *)

Lemma find_at_app (c : Z) (a b : pystr) (i : Z) :
  ~ In c a -> Str.find_at c (a ++ c :: b) i = i + Str.len a.
Proof.
  revert i. induction a as [|x a IH]; intros i H.
  - cbn [app Str.find_at]. rewrite Z.eqb_refl. unfold Str.len. cbn. lia.
  - cbn [app Str.find_at]. destruct (Z.eqb_spec x c) as [->|_].
    + exfalso. apply H. left. reflexivity.
    + rewrite IH by (intros Hin; apply H; right; exact Hin).
      unfold Str.len. cbn [List.length]. lia.
Qed.

Lemma skipn_app_exact {A} (a b : list A) (n : nat) :
  n = List.length a -> skipn n (a ++ b) = b.
Proof.
  intros ->. induction a as [|x a IH]; [reflexivity | exact IH].
Qed.

(** [splitroot] on [\\server\share\rest]: the drive is [\\server\share]
    and what is left is [rest]. *)
Lemma windows_splitroot_unc (s0 : Z) (srv shr rest : pystr) :
  s0 <> ch "\" -> s0 <> ch "?" ->
  ~ In (ch "\") srv -> ~ In (ch "\") shr -> shr <> [] ->
  snd (pathlib.windows_splitroot
         (u "\\" ++ (s0 :: srv) ++ ch "\" :: shr ++ ch "\" :: rest))
  = rest.
Proof.
  intros Hs0 Hq Hsrv Hshr Hne.
  set (P := u "\\" ++ (s0 :: srv) ++ ch "\" :: shr ++ ch "\" :: rest).
  assert (P = 92 :: 92 :: s0 :: srv ++ 92 :: shr ++ 92 :: rest) as EP
    by reflexivity.
  unfold pathlib.windows_splitroot.
  assert (Str.slice 0 1 P = [92]) as -> by reflexivity.
  assert (Str.slice 1 2 P = [92]) as -> by reflexivity.
  change (Str.eqb [92] (u "\") && Str.eqb [92] (u "\")) with true. cbv iota.
  assert (pathlib.split_extended_path P = ([], P)) as ->.
  { unfold pathlib.split_extended_path.
    assert (Str.startswith pathlib.ext_namespace_prefix P = false) as ->;
      [|reflexivity].
    rewrite EP. unfold Str.startswith, pathlib.ext_namespace_prefix.
    cbn [List.length firstn Str.eqb].
    apply Z.eqb_neq in Hq. change (ch "?") with 63 in Hq. rewrite Hq.
    reflexivity. }
  cbv beta iota zeta.
  assert (Str.slice 0 1 P = [92]) as -> by reflexivity.
  assert (Str.slice 1 2 P = [92]) as -> by reflexivity.
  assert (Str.slice 2 3 P = [s0]) as -> by reflexivity.
  assert (Str.eqb [s0] (u "\") = false) as ->.
  { change (u "\") with [92]. cbn [Str.eqb]. apply Z.eqb_neq in Hs0.
    change (ch "\") with 92 in Hs0. rewrite Hs0. reflexivity. }
  change (Str.eqb [92] (u "\") && Str.eqb [92] (u "\") && negb false)
    with true. cbv iota.
  assert (Str.find (ch "\") P 2 = 3 + Str.len srv) as Hi.
  { unfold Str.find, Str.from. rewrite EP.
    change (skipn (Z.to_nat 2)
                  (92 :: 92 :: s0 :: srv ++ 92 :: shr ++ 92 :: rest))
      with ((s0 :: srv) ++ ch "\" :: shr ++ 92 :: rest).
    rewrite find_at_app.
    - unfold Str.len. cbn [List.length]. lia.
    - intros [E|Hin]; [congruence | contradiction]. }
  rewrite Hi.
  assert (Str.from (3 + Str.len srv + 1) P = shr ++ ch "\" :: rest) as Hfrom.
  { unfold Str.from, Str.len. rewrite EP.
    replace (Z.to_nat (3 + Z.of_nat (List.length srv) + 1))
      with (List.length ((92 :: 92 :: s0 :: srv) ++ [92])).
    2:{ cbn [List.length app]. rewrite ?length_app. cbn [List.length]. lia. }
    replace (92 :: 92 :: s0 :: srv ++ 92 :: shr ++ 92 :: rest)
      with (((92 :: 92 :: s0 :: srv) ++ [92]) ++ shr ++ 92 :: rest)
      by (rewrite <- app_assoc; reflexivity).
    apply skipn_app_exact. reflexivity. }
  assert (Str.find (ch "\") P (3 + Str.len srv + 1)
          = 3 + Str.len srv + 1 + Str.len shr) as Hi2.
  { unfold Str.find. rewrite Hfrom. apply find_at_app. exact Hshr. }
  rewrite Hi2.
  assert (0 <= Str.len srv /\ 0 < Str.len shr) as [L1 L2].
  { unfold Str.len. destruct shr; [congruence|]. cbn [List.length]. lia. }
  assert (negb (3 + Str.len srv =? -1) = true) as ->
    by (apply negb_true_iff, Z.eqb_neq; lia).
  assert (negb (3 + Str.len srv + 1 + Str.len shr =? 3 + Str.len srv + 1)
          = true) as -> by (apply negb_true_iff, Z.eqb_neq; lia).
  assert ((3 + Str.len srv + 1 + Str.len shr =? -1) = false) as ->
    by (apply Z.eqb_neq; lia).
  cbn [Str.truthy snd].
  unfold Str.from, Str.len. rewrite EP.
  replace (Z.to_nat (3 + Z.of_nat (List.length srv) + 1
                     + Z.of_nat (List.length shr) + 1))
    with (List.length ((92 :: 92 :: s0 :: srv) ++ [92] ++ shr ++ [92])).
  2:{ cbn [List.length app]. rewrite ?length_app. cbn [List.length app].
      rewrite ?length_app. cbn [List.length]. lia. }
  replace (92 :: 92 :: s0 :: srv ++ 92 :: shr ++ 92 :: rest)
    with (((92 :: 92 :: s0 :: srv) ++ [92] ++ shr ++ [92]) ++ rest)
    by (rewrite <- !app_assoc; reflexivity).
  apply skipn_app_exact. reflexivity.
Qed.

(** X16. On a Windows host the server and the share of a UNC path
    [\\server\share\rest] are its drive: the file name is the last kept
    field of [rest] alone. A share by itself has no file name, so
    [\\server\.env\] is not classified as sensitive. *)
Theorem X16_windows_unc_paths :
  forall (U : UnicodeData) (s0 : Z) (srv shr rest : pystr),
    s0 <> ch "\" -> s0 <> ch "/" -> s0 <> ch "?" ->
    ~ In (ch "\") srv -> ~ In (ch "/") srv ->
    ~ In (ch "\") shr -> ~ In (ch "/") shr -> shr <> [] ->
    get_filename_from_path pathlib.Windows
      (u "\\" ++ (s0 :: srv) ++ ch "\" :: shr ++ ch "\" :: rest)
    = final_component (ch "\") (Str.replace (ch "/") (ch "\") rest) /\
    (rest = [] ->
     classify pathlib.Windows U
       (u "\\" ++ (s0 :: srv) ++ ch "\" :: shr ++ ch "\" :: rest) = false).
Proof.
  intros U s0 srv shr rest H1 H2 H3 H4 H5 H6 H7 H8.
  assert (get_filename_from_path pathlib.Windows
            (u "\\" ++ (s0 :: srv) ++ ch "\" :: shr ++ ch "\" :: rest)
          = final_component (ch "\") (Str.replace (ch "/") (ch "\") rest))
    as Hname.
  { unfold get_filename_from_path, pathlib.Path.
    change (u "\\" ++ (s0 :: srv) ++ ch "\" :: shr ++ ch "\" :: rest)
      with (92 :: 92 :: s0 :: srv ++ ch "\" :: shr ++ ch "\" :: rest).
    cbn [Str.truthy negb]. rewrite name_parse_parts by discriminate.
    cbn [pathlib.altsep pathlib.sep pathlib.splitroot]. cbv zeta.
    change (92 :: 92 :: s0 :: srv ++ ch "\" :: shr ++ ch "\" :: rest)
      with (u "\\" ++ (s0 :: srv) ++ ch "\" :: shr ++ [ch "\"] ++ rest).
    rewrite !replace_app.
    rewrite (replace_absent _ _ (s0 :: srv))
      by (intros [E|E]; [congruence | contradiction]).
    change (ch "\" :: shr ++ [ch "\"] ++ rest)
      with ([ch "\"] ++ shr ++ [ch "\"] ++ rest).
    rewrite !replace_app. rewrite (replace_absent _ _ shr) by exact H7.
    change (Str.replace (ch "/") (ch "\") (u "\\")) with (u "\\").
    change (Str.replace (ch "/") (ch "\") [ch "\"]) with [ch "\"].
    change ([ch "\"] ++ shr ++ [ch "\"] ++ Str.replace (ch "/") (ch "\") rest)
      with (ch "\" :: shr ++ ch "\" :: Str.replace (ch "/") (ch "\") rest).
    rewrite windows_splitroot_unc by assumption. reflexivity. }
  split; [exact Hname|].
  intros ->. unfold classify. rewrite Hname. reflexivity.
Qed.

Lemma X16_witness :
  let path := u "\\" ++ (ch "s" :: u "rv") ++ ch "\" :: u ".env" ++ ch "\" :: [] in
  ch "s" <> ch "\" /\ ch "s" <> ch "/" /\ ch "s" <> ch "?" /\
  ~ In (ch "\") (u "rv") /\ ~ In (ch "/") (u "rv") /\
  ~ In (ch "\") (u ".env") /\ ~ In (ch "/") (u ".env") /\ u ".env" <> [] /\
  get_filename_from_path pathlib.Windows path = [] /\
  classify pathlib.Windows Sample.ucd path = false.
Proof.
  intros path.
  assert (ch "s" <> ch "\") as H1 by discriminate.
  assert (ch "s" <> ch "/") as H2 by discriminate.
  assert (ch "s" <> ch "?") as H3 by discriminate.
  assert (~ In (ch "\") (u "rv")) as H4 by (apply contains_false; reflexivity).
  assert (~ In (ch "/") (u "rv")) as H5 by (apply contains_false; reflexivity).
  assert (~ In (ch "\") (u ".env")) as H6
    by (apply contains_false; reflexivity).
  assert (~ In (ch "/") (u ".env")) as H7
    by (apply contains_false; reflexivity).
  assert (u ".env" <> []) as H8 by discriminate.
  destruct (X16_windows_unc_paths Sample.ucd (ch "s") (u "rv") (u ".env") []
              H1 H2 H3 H4 H5 H6 H7 H8) as [Hn Hc].
  exact (conj H1 (conj H2 (conj H3 (conj H4 (conj H5 (conj H6 (conj H7
          (conj H8 (conj Hn (Hc eq_refl)))))))))).
Defined.
